(** * Traits change notification: a shallow embedding of [traits/trait_notifiers.py]

    The development follows the module top to bottom: Python values and
    exceptions, the process state the module keeps (per-thread handler
    stacks, the ui thread, the notifier lists that own dynamic wrappers), the
    [NotificationExceptionHandler] class, the static notify wrappers and the
    dynamic [TraitChangeNotifyWrapper] family.  Statements about the code come
    after all definitions. *)

From stdpp Require Import base option list gmap strings pretty.
From Stdlib Require Import ZArith.

Open Scope Z_scope.

(** ** Python values and exceptions *)

(** Values that travel through a notification.  [Uninitialized] is the
    singleton imported from [trait_base]; the code only ever tests it with
    [is], so one constructor stands for that object.  [PyRef a] is the object
    stored at address [a]. *)
Inductive value : Type :=
  | Uninitialized
  | PyNone
  | PyInt (z : Z)
  | PyStr (s : string)
  | PyRef (a : nat).

#[global] Instance value_eq_dec : EqDecision value.
Proof. solve_decision. Defined.

Definition is_Uninitialized (v : value) : bool :=
  match v with Uninitialized => true | _ => false end.

(** Exception classes that occur in the module.  [KeyboardInterrupt] stands
    for the classes that derive from [BaseException] only and therefore pass
    through an [except Exception:] clause. *)
Inductive exc_class : Type :=
  | KeyboardInterrupt
  | IndexError
  | KeyError
  | ValueError
  | TypeError
  | AttributeError
  | TraitNotificationError
  | UserError (tag : nat).

Record exc : Type := Exc { exc_cls : exc_class; exc_msg : string }.

(** [isinstance( excp, Exception )], the filter of [except Exception:]. *)
Definition is_Exception (e : exc) : bool :=
  match exc_cls e with KeyboardInterrupt => false | _ => true end.

(** Modelled from the spec: [TraitNotificationError] lives in [trait_errors],
    which is not part of the sources at hand; the spec calls it the
    handler-stack error and the signature error, an ordinary exception class.
    [isinstance( excp, TraitNotificationError )]. *)
Definition is_TraitNotificationError (e : exc) : bool :=
  match exc_cls e with TraitNotificationError => true | _ => false end.

(** ** Callables *)

(** A Python function object: [__name__], [func_code.co_argcount] and its
    identity. *)
Record function : Type := Function {
  func_name : string;
  co_argcount : nat;
  func_id : nat
}.

(** What a caller may hand over as a listener: a plain function, or an
    instance of [MethodType] with its [im_func] and [im_self] ([None] for an
    unbound method, [Some a] for a method bound to the object at [a]). *)
Inductive callable : Type :=
  | Func (f : function)
  | Method (im_func : function) (im_self : option nat).

(** What a wrapper finally calls: the stored handler, or the attribute
    [getattr( obj(), self.name )] looked up on the live receiver. *)
Inductive target : Type :=
  | Stored (c : callable)
  | Attr (receiver : nat) (name : string).

#[global] Instance function_eq_dec : EqDecision function.
Proof. solve_decision. Defined.
#[global] Instance callable_eq_dec : EqDecision callable.
Proof. solve_decision. Defined.

(** ** Exception handler records *)

(** The callable kept in a handler record: the bound method
    [self._log_exception] or a callable supplied by the user. *)
Inductive exc_handler : Type :=
  | _log_exception
  | user_handler (h : nat).

(** class NotificationExceptionHandlerState *)
Record NotificationExceptionHandlerState : Type := HandlerState {
  handler : exc_handler;
  reraise_exceptions : bool;
  locked : bool
}.

(** ** Observable effects and the process state *)

(** One notification event, the arguments every wrapper is called with. *)
Record event : Type := Event {
  ev_object : value;
  ev_name : value;
  ev_old : value;
  ev_new : value
}.

Inductive effect : Type :=
  | Called (t : target) (args : list value)
      (* t( *args ) run inline on the calling thread *)
  | UiQueued (t : target) (args : list value)
      (* ui_handler( t, *args ) *)
  | ThreadStarted (t : target) (args : list value)
      (* Thread( target = t, args = args ).start() *)
  | Handled (h : exc_handler) (ev : event) (e : exc).
      (* h( object, trait_name, old, new ) while e is in flight *)

(** The mutable state the module works on.  [thread_local] holds one handler
    list per thread identifier.  Python stores in [main_thread] a reference to
    one of those very lists (an alias, not a copy); each list is created once
    per thread and never replaced, so the alias is kept as the identifier of
    the thread that owns the list.  [owners] is the store of notifier lists
    (the [owner] of a dynamic wrapper), holding wrapper identities; [live] is
    the set of addresses whose object has not been collected. *)
Record world : Type := World {
  thread_local : gmap Z (list NotificationExceptionHandlerState);
  main_thread : option Z;
  ui_thread : Z;
  ui_handler : option nat;
  owners : gmap nat (list nat);
  live : gset nat;
  trace : list effect
}.

Definition initial_world : world :=
  {| thread_local := ∅; main_thread := None; ui_thread := -1;
     ui_handler := None; owners := ∅; live := ∅; trace := [] |}.

Definition set_thread_local (tl : gmap Z (list NotificationExceptionHandlerState))
    (w : world) : world :=
  {| thread_local := tl; main_thread := main_thread w;
     ui_thread := ui_thread w; ui_handler := ui_handler w;
     owners := owners w; live := live w; trace := trace w |}.

Definition set_main_thread (m : option Z) (w : world) : world :=
  {| thread_local := thread_local w; main_thread := m;
     ui_thread := ui_thread w; ui_handler := ui_handler w;
     owners := owners w; live := live w; trace := trace w |}.

Definition set_owners (o : gmap nat (list nat)) (w : world) : world :=
  {| thread_local := thread_local w; main_thread := main_thread w;
     ui_thread := ui_thread w; ui_handler := ui_handler w;
     owners := o; live := live w; trace := trace w |}.

Definition set_ui (tid : Z) (h : option nat) (w : world) : world :=
  {| thread_local := thread_local w; main_thread := main_thread w;
     ui_thread := tid; ui_handler := h;
     owners := owners w; live := live w; trace := trace w |}.

Definition add_effect (x : effect) (w : world) : world :=
  {| thread_local := thread_local w; main_thread := main_thread w;
     ui_thread := ui_thread w; ui_handler := ui_handler w;
     owners := owners w; live := live w; trace := trace w ++ [x] |}.

(** ** Computations that may raise *)

Inductive res (A : Type) : Type :=
  | Ret (a : A)
  | Raise (e : exc).
Arguments Ret {A} a.
Arguments Raise {A} e.

(** A statement of the module: it reads and updates the world and either
    returns or raises; what it changed before raising stays changed. *)
Definition M (A : Type) : Type := world -> res A * world.

Definition ret {A} (a : A) : M A := fun w => (Ret a, w).
Definition raise {A} (e : exc) : M A := fun w => (Raise e, w).
Definition bind {A B} (m : M A) (k : A -> M B) : M B :=
  fun w => match m w with
           | (Ret a, w') => k a w'
           | (Raise e, w') => (Raise e, w')
           end.
Definition get : M world := fun w => (Ret w, w).
Definition modify (f : world -> world) : M unit := fun w => (Ret tt, f w).
Definition emit (x : effect) : M unit := modify (add_effect x).

(** [try: body  except Exception: on_exc] with the caught exception handed to
    the clause (Python keeps it in [sys.exc_info()]). *)
Definition try_except_Exception {A} (body : M A) (on_exc : exc -> M A) : M A :=
  fun w => match body w with
           | (Ret a, w') => (Ret a, w')
           | (Raise e, w') =>
               if is_Exception e then on_exc e w' else (Raise e, w')
           end.

Notation "'let!' x ':=' m 'in' k" := (bind m (fun x => k))
  (at level 10, x pattern, m at level 100, k at level 200).
Notation "'exec!' m 'in' k" := (bind m (fun _ => k))
  (at level 10, m at level 100, k at level 200).

(** [l[-1]] and [l[-2]]: [getitem_neg l k] is [l[-(k+1)]]. *)
Definition getitem_neg {A} (l : list A) (k : nat) : M A :=
  match reverse l !! k with
  | Some x => ret x
  | None => raise (Exc IndexError "list index out of range")
  end.

(** ** class NotificationExceptionHandler *)

Section Handlers.

(** What a handler pushed by the user does when it is called with the event
    while [e] is in flight: [None] when it returns, [Some e'] when it raises
    [e'].  Handler bodies are code of the application. *)
Variable handler_behaviour : nat -> event -> exc -> option exc.

(** [tid] is [get_ident()], the identifier of the executing thread. *)
Variable tid : Z.

Definition default_state : NotificationExceptionHandlerState :=
  HandlerState _log_exception false false.

(** def _get_handlers ( self ).  The two storage variants of the source (a
    [dict] keyed by [get_ident()] or a [threading.local] with a [handlers]
    attribute) are one map from thread identifier to list. *)
Definition _get_handlers : M (list NotificationExceptionHandlerState) :=
  let! w := get in
  match thread_local w !! tid with
  | Some handlers => ret handlers
  | None =>
      let! h :=
        match main_thread w with
        | Some m =>
            (* handler = self.main_thread[-1] *)
            getitem_neg (default [] (thread_local w !! m)) 0
        | None => ret default_state
        end in
      let handlers := [h] in
      exec! modify (set_thread_local (<[tid := handlers]> (thread_local w))) in
      ret handlers
  end.

(** def _check_lock ( self, handlers ) *)
Definition _check_lock (handlers : list NotificationExceptionHandlerState)
    : M unit :=
  let! top := getitem_neg handlers 0 in
  if locked top then
    raise (Exc TraitNotificationError
      "The traits notification exception handler is locked. No changes are allowed.")
  else ret tt.

(** def _push_handler ( self, handler = None, reraise_exceptions = False,
                             main = False, locked = False ).
    The list returned by [_get_handlers] is the object stored for the thread,
    so [append] is an update of that entry. *)
Definition _push_handler (h : option exc_handler) (reraise main lock : bool)
    : M NotificationExceptionHandlerState :=
  let! handlers := _get_handlers in
  exec! _check_lock handlers in
  let h := match h with None => _log_exception | Some h => h end in
  let handlers := handlers ++ [HandlerState h reraise lock] in
  exec! modify (fun w =>
          set_thread_local (<[tid := handlers]> (thread_local w)) w) in
  exec! (if main then modify (set_main_thread (Some tid)) else ret tt) in
  getitem_neg handlers 1.

(** def _pop_handler ( self ) *)
Definition _pop_handler : M unit :=
  let! handlers := _get_handlers in
  exec! _check_lock handlers in
  if decide (1 < length handlers)%nat then
    modify (fun w =>
      set_thread_local (<[tid := removelast handlers]> (thread_local w)) w)
  else
    raise (Exc TraitNotificationError
      "Attempted to pop an empty traits notification exception handler stack.").

(** def _log_exception ( self, object, trait_name, old, new ).  It writes to
    [sys.__stderr__] and to the [traits] logger and swallows what the logger
    raises; here the call is recorded and returns. *)
Definition run_handler (h : exc_handler) (ev : event) (e : exc) : M unit :=
  exec! emit (Handled h ev e) in
  match h with
  | _log_exception => ret tt
  | user_handler n =>
      match handler_behaviour n ev e with
      | None => ret tt
      | Some e' => raise e'
      end
  end.

(** def _handle_exception ( self, object, trait_name, old, new ), with
    [excp], the second component of [sys.exc_info()], as a parameter; the bare
    [raise] raises it again. *)
Definition _handle_exception (ev : event) (excp : exc) : M unit :=
  let! handlers := _get_handlers in
  let! handler_info := getitem_neg handlers 0 in
  exec! run_handler (handler handler_info) ev excp in
  if reraise_exceptions handler_info || is_TraitNotificationError excp then
    raise excp
  else ret tt.

End Handlers.

(** An instance attribute: not assigned yet, [None], or a value. *)
Inductive attr (A : Type) : Type :=
  | Unset
  | IsNone
  | Is (a : A).
Arguments Unset {A}.
Arguments IsNone {A}.
Arguments Is {A} a.

(** ** Calling a listener *)

Section Wrappers.

Variable handler_behaviour : nat -> event -> exc -> option exc.

(** What a listener does when it is called inline with the given arguments:
    [None] when it returns, [Some e] when it raises [e].  Listener bodies are
    code of the application; the model records the call and its outcome. *)
Variable behaviour : target -> list value -> option exc.

(** The same for the function installed with [set_ui_handler]. *)
Variable ui_behaviour : nat -> target -> list value -> option exc.

Variable tid : Z.

(** handle_exception = notification_exception_handler._handle_exception *)
Definition handle_exception : event -> exc -> M unit :=
  _handle_exception handler_behaviour tid.

(** [t( *args )] *)
Definition invoke (t : target) (args : list value) : M unit :=
  exec! emit (Called t args) in
  match behaviour t args with
  | None => ret tt
  | Some e => raise e
  end.

(** def set_ui_handler ( handler ) *)
Definition set_ui_handler (h : option nat) : M unit :=
  modify (set_ui tid h).

(** ** class AbstractStaticChangeNotifyWrapper and its two subclasses *)

Definition transform : Type := value -> value -> value -> value -> list value.

Inductive static_class : Type :=
  | StaticAnyTraitChangeNotifyWrapper
  | StaticTraitChangeNotifyWrapper.

(** The class attribute [argument_transforms], a dict from argument count to
    lambda. *)
Definition argument_transforms (c : static_class) : gmap Z transform :=
  match c with
  | StaticAnyTraitChangeNotifyWrapper =>
      <[0 := fun obj name old new => []]> (
      <[1 := fun obj name old new => [obj]]> (
      <[2 := fun obj name old new => [obj; name]]> (
      <[3 := fun obj name old new => [obj; name; new]]> (
      <[4 := fun obj name old new => [obj; name; old; new]]> ∅))))
  | StaticTraitChangeNotifyWrapper =>
      <[0 := fun obj name old new => []]> (
      <[1 := fun obj name old new => [obj]]> (
      <[2 := fun obj name old new => [obj; new]]> (
      <[3 := fun obj name old new => [obj; old; new]]> (
      <[4 := fun obj name old new => [obj; name; old; new]]> ∅))))
  end.

Record static_wrapper : Type := StaticWrapper {
  s_class : static_class;
  argument_transform : transform;
  s_handler : function
}.

Definition static_arity_message (name : string) (arg_count : Z) : string :=
  "Invalid number of arguments for the static anytrait change notification handler: "
  +:+ name +:+ ". A maximum of 4 arguments is allowed, but "
  +:+ pretty arg_count +:+ " were specified.".

(** def __init__ ( self, handler ).  A static handler is a function found in
    a class body, so [handler] is a [function]. *)
Definition static_init (c : static_class) (handler : function)
    : res static_wrapper :=
  let arg_count := Z.of_nat (co_argcount handler) in
  if decide (arg_count > 4) then
    Raise (Exc TraitNotificationError
             (static_arity_message (func_name handler) arg_count))
  else
    match argument_transforms c !! arg_count with
    | None => Raise (Exc KeyError (pretty arg_count))
    | Some t => Ret (StaticWrapper c t handler)
    end.

(** The statements under [try:] in [__call__]. *)
Definition static_body (self : static_wrapper) (ev : event) : M unit :=
  let args := argument_transform self (ev_object ev) (ev_name ev)
                (ev_old ev) (ev_new ev) in
  invoke (Stored (Func (s_handler self))) args.

(** def __call__ ( self, object, trait_name, old, new ) *)
Definition static_call (self : static_wrapper) (ev : event) : M unit :=
  if negb (is_Uninitialized (ev_old ev)) then
    try_except_Exception (static_body self ev)
      (fun e => handle_exception ev e)
  else ret tt.

(** Any Python object that may be passed to [equals]: a notify wrapper (known
    by its identity), a callable, or some other value. *)
Inductive pyobj : Type :=
  | ObjWrapper (id : nat)
  | ObjCallable (c : callable)
  | ObjValue (v : value).

#[global] Instance pyobj_eq_dec : EqDecision pyobj.
Proof. solve_decision. Defined.

(** def equals ( self, handler ): return False *)
Definition static_equals (self : static_wrapper) (handler : pyobj) : bool :=
  false.

(** ** class TraitChangeNotifyWrapper and its subclasses *)

Inductive wrapper_class : Type :=
  | TraitChangeNotifyWrapper
  | ExtendedTraitChangeNotifyWrapper
  | FastUITraitChangeNotifyWrapper
  | NewTraitChangeNotifyWrapper.

(** The instance: its class, its identity and its attributes.  [w_object]
    holds [weakref.ref( x, self.listener_deleted )] as the address of [x];
    [w_owner] is a reference into [owners].  The code never assigns [None] to
    [handler] or [call_method], so for these two [None] means "not assigned
    yet". *)
Record wrapper : Type := Wrapper {
  w_class : wrapper_class;
  w_id : nat;
  w_object : attr nat;
  w_name : attr string;
  w_owner : attr nat;
  w_handler : option callable;
  w_call_method : option string
}.

Definition blank (c : wrapper_class) (id : nat) : wrapper :=
  Wrapper c id Unset Unset Unset None None.

Definition set_object (o : attr nat) (self : wrapper) : wrapper :=
  Wrapper (w_class self) (w_id self) o (w_name self) (w_owner self)
          (w_handler self) (w_call_method self).
Definition set_name (n : attr string) (self : wrapper) : wrapper :=
  Wrapper (w_class self) (w_id self) (w_object self) n (w_owner self)
          (w_handler self) (w_call_method self).
Definition set_owner (o : attr nat) (self : wrapper) : wrapper :=
  Wrapper (w_class self) (w_id self) (w_object self) (w_name self) o
          (w_handler self) (w_call_method self).
Definition set_handler (h : option callable) (self : wrapper) : wrapper :=
  Wrapper (w_class self) (w_id self) (w_object self) (w_name self)
          (w_owner self) h (w_call_method self).
Definition set_call_method (m : option string) (self : wrapper) : wrapper :=
  Wrapper (w_class self) (w_id self) (w_object self) (w_name self)
          (w_owner self) (w_handler self) m.

Definition no_attribute {A} (name : string) : M A :=
  raise (Exc AttributeError name).

Definition dynamic_arity_message (name : string) (arg_count : Z) : string :=
  "Invalid number of arguments for the dynamic trait change notification handler: "
  +:+ name +:+ ". A maximum of 4 arguments is allowed, but "
  +:+ pretty arg_count +:+ " were specified.".

(** [handler.__name__] and [handler.func_code.co_argcount]; an instance of
    [MethodType] forwards both to its [im_func]. *)
Definition callable_function (c : callable) : function :=
  match c with Func f => f | Method f _ => f end.

(** def init ( self, handler, owner, target=None ): the result and [self] as
    the method leaves it. *)
Definition init (self : wrapper) (handler : callable) (owner : nat)
    (target : option nat) : res Z * wrapper :=
  let rest (self : wrapper) :=
    let arg_count := Z.of_nat (co_argcount (callable_function handler)) in
    if decide (arg_count > 4) then
      (Raise (Exc TraitNotificationError
                (dynamic_arity_message
                   (func_name (callable_function handler)) arg_count)), self)
    else
      let self := set_name IsNone self in
      let self := set_handler (Some handler) self in
      let self := set_call_method (Some ("call_" +:+ pretty arg_count)) self in
      (Ret arg_count, self) in
  match handler with
  | Method func (Some object) =>
      let self := set_object (Is object) self in
      let self := set_name (Is (func_name func)) self in
      let self := set_owner (Is owner) self in
      let arg_count := Z.of_nat (co_argcount func) - 1 in
      if decide (arg_count > 4) then
        (Raise (Exc TraitNotificationError
                  (dynamic_arity_message (func_name func) arg_count)), self)
      else
        let self :=
          set_call_method (Some ("rebind_call_" +:+ pretty arg_count)) self in
        (Ret arg_count, self)
  | Method func None => rest self
  | Func _ =>
      match target with
      | Some t => rest (set_owner (Is owner) (set_object (Is t) self))
      | None => rest self
      end
  end.

(** def __init__ ( self, handler, owner, target=None ): the instance is
    returned only when [init] does not raise. *)
Definition new_wrapper (c : wrapper_class) (id : nat) (handler : callable)
    (owner : nat) (target : option nat) : res wrapper :=
  match init (blank c id) handler owner target with
  | (Ret _, self) => Ret self
  | (Raise e, _) => Raise e
  end.

(** def dispatch ( self, handler, *args ), as the class of [self] defines it:
    inline for [TraitChangeNotifyWrapper] and the extended wrapper, through
    the ui handler off the ui thread for the fast ui wrapper, on a new thread
    for [NewTraitChangeNotifyWrapper]. *)
Definition dispatch (self : wrapper) (t : target) (args : list value)
    : M unit :=
  match w_class self with
  | TraitChangeNotifyWrapper | ExtendedTraitChangeNotifyWrapper =>
      invoke t args
  | FastUITraitChangeNotifyWrapper =>
      let! w := get in
      if decide (tid = ui_thread w) then invoke t args
      else
        match ui_handler w with
        | None => raise (Exc TypeError "'NoneType' object is not callable")
        | Some u =>
            exec! emit (UiQueued t args) in
            match ui_behaviour u t args with
            | None => ret tt
            | Some e => raise e
            end
        end
  | NewTraitChangeNotifyWrapper =>
      emit (ThreadStarted t args)
  end.

(** The arguments that [call_n] and [rebind_call_n] pass after the handler;
    the five methods of each family differ in nothing else. *)
Definition call_args (n : nat) (ev : event) : list value :=
  match n with
  | 0%nat => []
  | 1%nat => [ev_new ev]
  | 2%nat => [ev_name ev; ev_new ev]
  | 3%nat => [ev_object ev; ev_name ev; ev_new ev]
  | _ => [ev_object ev; ev_name ev; ev_old ev; ev_new ev]
  end.

(** [self.handler] *)
Definition read_handler (self : wrapper) : M target :=
  match w_handler self with
  | Some c => ret (Stored c)
  | None => no_attribute "handler"
  end.

(** [getattr( obj(), self.name )] for the weak reference [obj] to address
    [a]: the referent when it is alive, else [None], which has no such
    attribute. *)
Definition rebind (a : nat) (self : wrapper) : M target :=
  let! w := get in
  let referent := if decide (a ∈ live w) then Some a else None in
  match w_name self with
  | Unset => no_attribute "name"
  | IsNone =>
      raise (Exc TypeError "getattr(): attribute name must be string")
  | Is name =>
      match referent with
      | Some r => ret (Attr r name)
      | None => raise (Exc AttributeError name)
      end
  end.

(** The statement under [try:] in [call_n]:
    [self.dispatch( self.handler, ... )]. *)
Definition call_body (n : nat) (self : wrapper) (ev : event) : M unit :=
  let! h := read_handler self in dispatch self h (call_args n ev).

(** The statement under [try:] in [rebind_call_n]:
    [self.dispatch( getattr( obj(), self.name ), ... )]. *)
Definition rebind_body (obj : nat) (n : nat) (self : wrapper) (ev : event)
    : M unit :=
  let! h := rebind obj self in dispatch self h (call_args n ev).

(** TraitChangeNotifyWrapper.call_0 .. call_4 *)
Definition call_n (n : nat) (self : wrapper) (ev : event) : M unit :=
  if negb (is_Uninitialized (ev_old ev)) then
    try_except_Exception (call_body n self ev)
      (fun e => handle_exception ev e)
  else ret tt.

(** TraitChangeNotifyWrapper.rebind_call_0 .. rebind_call_4 *)
Definition rebind_call_n (n : nat) (self : wrapper) (ev : event) : M unit :=
  match w_object self with
  | Unset => no_attribute "object"
  | IsNone => ret tt
  | Is obj =>
      if negb (is_Uninitialized (ev_old ev)) then
        try_except_Exception (rebind_body obj n self ev)
          (fun e => handle_exception ev e)
      else ret tt
  end.

(** ExtendedTraitChangeNotifyWrapper.call_0 .. call_4 *)
Definition extended_call_n (n : nat) (self : wrapper) (ev : event)
    : M unit :=
  try_except_Exception (call_body n self ev)
    (fun e => handle_exception ev e).

(** ExtendedTraitChangeNotifyWrapper.rebind_call_0 .. rebind_call_4 *)
Definition extended_rebind_call_n (n : nat) (self : wrapper) (ev : event)
    : M unit :=
  match w_object self with
  | Unset => no_attribute "object"
  | IsNone => ret tt
  | Is obj =>
      try_except_Exception (rebind_body obj n self ev)
        (fun e => handle_exception ev e)
  end.

(** The ten method names a wrapper class defines for [call_method]. *)
Inductive method : Type :=
  | call_ (n : nat)
  | rebind_call_ (n : nat).

Definition method_names : list (string * method) :=
  [ ("call_0", call_ 0); ("call_1", call_ 1); ("call_2", call_ 2);
    ("call_3", call_ 3); ("call_4", call_ 4);
    ("rebind_call_0", rebind_call_ 0); ("rebind_call_1", rebind_call_ 1);
    ("rebind_call_2", rebind_call_ 2); ("rebind_call_3", rebind_call_ 3);
    ("rebind_call_4", rebind_call_ 4) ]%nat.

Fixpoint assoc (name : string) (l : list (string * method)) : option method :=
  match l with
  | [] => None
  | (k, m) :: l' => if decide (name = k) then Some m else assoc name l'
  end.

(** def __call__(self, object, trait_name, old, new):
    [getattr(self, self.call_method)(object, trait_name, old, new)], resolved
    in the class of [self]. *)
Definition call (self : wrapper) (ev : event) : M unit :=
  match w_call_method self with
  | None => no_attribute "call_method"
  | Some name =>
      match assoc name method_names, w_class self with
      | None, _ => no_attribute name
      | Some (call_ n), ExtendedTraitChangeNotifyWrapper =>
          extended_call_n n self ev
      | Some (rebind_call_ n), ExtendedTraitChangeNotifyWrapper =>
          extended_rebind_call_n n self ev
      | Some (call_ n), _ => call_n n self ev
      | Some (rebind_call_ n), _ => rebind_call_n n self ev
      end
  end.

(** def equals ( self, handler ) *)
Definition equals (self : wrapper) (handler : pyobj) : M bool :=
  if decide (handler = ObjWrapper (w_id self)) then ret true
  else
    let third :=
      match w_name self with
      | Unset => no_attribute "name"
      | Is _ => ret false
      | IsNone =>
          match w_handler self with
          | None => no_attribute "handler"
          | Some c => ret (bool_decide (handler = ObjCallable c))
          end
      end in
    match handler with
    | ObjCallable (Method func (Some im_self)) =>
        match w_name self with
        | Unset => no_attribute "name"
        | IsNone => ret false
        | Is name =>
            if decide (func_name func = name) then
              match w_object self with
              | Unset => no_attribute "object"
              | IsNone =>
                  raise (Exc TypeError "'NoneType' object is not callable")
              | Is a =>
                  let! w := get in
                  let referent := if decide (a ∈ live w) then Some a else None in
                  ret (bool_decide (referent = Some im_self))
              end
            else ret false
        end
    | _ => third
    end.

(** [self.owner.remove( self )] on the list stored under [l]: the first
    occurrence goes, [ValueError] when there is none.  An identifier without
    an entry in [owners] denotes an empty list. *)
Fixpoint remove_first (x : nat) (l : list nat) : option (list nat) :=
  match l with
  | [] => None
  | y :: l' =>
      if decide (x = y) then Some l'
      else option_map (cons y) (remove_first x l')
  end.

Definition list_remove (l : nat) (x : nat) : M unit :=
  let! w := get in
  match remove_first x (owners w !!! l) with
  | Some xs => modify (set_owners (<[l := xs]> (owners w)))
  | None => raise (Exc ValueError "list.remove(x): x not in list")
  end.

(** [try: ...  except ValueError: pass] *)
Definition try_except_ValueError (body : M unit) : M unit :=
  fun w => match body w with
           | (Ret a, w') => (Ret a, w')
           | (Raise e, w') =>
               match exc_cls e with
               | ValueError => (Ret tt, w')
               | _ => (Raise e, w')
               end
           end.

(** def listener_deleted ( self, ref ): the outcome and [self] afterwards. *)
Definition listener_deleted (self : wrapper) : world -> res unit * wrapper * world :=
  fun w =>
    let removal :=
      try_except_ValueError
        (match w_owner self with
         | Unset => no_attribute "owner"
         | IsNone => no_attribute "remove"
         | Is l => list_remove l (w_id self)
         end) in
    match removal w with
    | (Ret _, w') => (Ret tt, set_owner IsNone (set_object IsNone self), w')
    | (Raise e, w') => (Raise e, self, w')
    end.

(** def dispose ( self ) *)
Definition dispose (self : wrapper) : wrapper :=
  set_object IsNone self.

End Wrappers.

(** ** Vocabulary of the statements *)

(** The invariant of the handler stacks: every stack that exists holds at
    least one record, and the list aliased by [main_thread] is the stack of
    an existing thread. *)
Definition stacks_ok (w : world) : Prop :=
  (∀ t hs, thread_local w !! t = Some hs → (1 ≤ length hs)%nat) ∧
  (∀ m, main_thread w = Some m → is_Some (thread_local w !! m)).

(** The top record of a stack is locked. *)
Definition top_locked (hs : list NotificationExceptionHandlerState) : bool :=
  match last hs with
  | Some top => locked top
  | None => false
  end.

(** The stack of thread [tid] as the world stores it. *)
Definition stack_of (tid : Z) (w : world)
    : option (list NotificationExceptionHandlerState) :=
  thread_local w !! tid.

(** The record [_push_handler] appends, and the world it leaves when the
    stack of the thread becomes [hs]. *)
Definition pushed_record (h : option exc_handler) (reraise lock : bool)
    : NotificationExceptionHandlerState :=
  HandlerState (match h with None => _log_exception | Some h => h end)
               reraise lock.

Definition after_push (tid : Z) (hs : list NotificationExceptionHandlerState)
    (main : bool) (w : world) : world :=
  let w' := set_thread_local (<[tid := hs]> (thread_local w)) w in
  if main then set_main_thread (Some tid) w' else w'.

(** The argument tables as the specification words them, for a listener on
    one attribute and for a listener on any attribute; nothing is said beyond
    four arguments. *)
Definition spec_per_attribute (a : nat) (ev : event) : option (list value) :=
  match a with
  | 0%nat => Some []
  | 1%nat => Some [ev_new ev]
  | 2%nat => Some [ev_name ev; ev_new ev]
  | 3%nat => Some [ev_object ev; ev_name ev; ev_new ev]
  | 4%nat => Some [ev_object ev; ev_name ev; ev_old ev; ev_new ev]
  | _ => None
  end.

Definition spec_any_attribute (a : nat) (ev : event) : option (list value) :=
  match a with
  | 0%nat => Some []
  | 1%nat => Some [ev_object ev]
  | 2%nat => Some [ev_object ev; ev_name ev]
  | 3%nat => Some [ev_object ev; ev_name ev; ev_new ev]
  | 4%nat => Some [ev_object ev; ev_name ev; ev_old ev; ev_new ev]
  | _ => None
  end.

(** The table of a static listener on one attribute, whose first declared
    argument is the object itself. *)
Definition static_per_attribute (a : nat) (ev : event) : option (list value) :=
  match a with
  | 0%nat => Some []
  | 1%nat => Some [ev_object ev]
  | 2%nat => Some [ev_object ev; ev_new ev]
  | 3%nat => Some [ev_object ev; ev_old ev; ev_new ev]
  | 4%nat => Some [ev_object ev; ev_name ev; ev_old ev; ev_new ev]
  | _ => None
  end.

(** The number of positional arguments a callback declares, a bound method
    counted without its receiver. *)
Definition declared_arity (h : callable) : Z :=
  match h with
  | Method f (Some _) => Z.of_nat (co_argcount f) - 1
  | Method f None => Z.of_nat (co_argcount f)
  | Func f => Z.of_nat (co_argcount f)
  end.

(** The wrapper is bound weakly: it holds a weak reference, to the receiver
    of the bound method it was built from or to the target it was given, so
    that it does not keep that object alive and is removed when the object is
    collected.  [init] sets [object] to such a reference in exactly these two
    cases.  This is not what [equals] asks: it tests [self.name is None], and
    a wrapper of a function with a target keeps no name. *)
Definition weakly_bound (self : wrapper) : Prop :=
  ∃ a, w_object self = Is a.

(** The method family [__call__] reaches in a wrapper of class [c]. *)
Definition call_family (c : wrapper_class) (n : nat)
    (hb : nat → event → exc → option exc)
    (b : target → list value → option exc)
    (ub : nat → target → list value → option exc) (tid : Z)
    : wrapper → event → M unit :=
  match c with
  | ExtendedTraitChangeNotifyWrapper => extended_call_n hb b ub tid n
  | _ => call_n hb b ub tid n
  end.

Definition rebind_call_family (c : wrapper_class) (n : nat)
    (hb : nat → event → exc → option exc)
    (b : target → list value → option exc)
    (ub : nat → target → list value → option exc) (tid : Z)
    : wrapper → event → M unit :=
  match c with
  | ExtendedTraitChangeNotifyWrapper => extended_rebind_call_n hb b ub tid n
  | _ => rebind_call_n hb b ub tid n
  end.

(** The handler of a record returns when it is called for [ev] with [e] in
    flight: [_log_exception] always does, a handler of the user according to
    [hb]. *)
Definition handler_returns (hb : nat → event → exc → option exc)
    (h : exc_handler) (ev : event) (e : exc) : Prop :=
  match h with
  | _log_exception => True
  | user_handler n => hb n ev e = None
  end.

(** The wrapper runs the callback inline on the thread [tid]. *)
Definition runs_inline (tid : Z) (self : wrapper) (w : world) : Prop :=
  match w_class self with
  | TraitChangeNotifyWrapper | ExtendedTraitChangeNotifyWrapper => True
  | FastUITraitChangeNotifyWrapper => tid = ui_thread w
  | NewTraitChangeNotifyWrapper => False
  end.

(** The wrapper as [listener_deleted] leaves it. *)
Definition deleted (self : wrapper) : wrapper :=
  set_owner IsNone (set_object IsNone self).

(** The registrations there are: a wrapper returned by the constructor,
    possibly disposed of or cleaned up by [listener_deleted] since. *)
Inductive registration : wrapper → Prop :=
  | reg_new c id handler owner target self :
      new_wrapper c id handler owner target = Ret self → registration self
  | reg_dispose self : registration self → registration (dispose self)
  | reg_deleted self : registration self → registration (deleted self).

(** ** Concrete inputs *)

(** Handlers, listeners and a ui handler that return. *)
Definition quiet_handlers : nat → event → exc → option exc :=
  fun _ _ _ => None.
Definition quiet : target → list value → option exc := fun _ _ => None.
Definition quiet_ui : nat → target → list value → option exc :=
  fun _ _ _ => None.

(** A listener that raises ValueError whatever it is called with. *)
Definition boom : exc := Exc ValueError "boom".
Definition failing : target → list value → option exc :=
  fun _ _ => Some boom.

(** The change of attribute "x" of the object at address 1 from 0 to 5, and
    the first assignment of 5 to it. *)
Definition ev_change : event :=
  Event (PyRef 1) (PyStr "x") (PyInt 0) (PyInt 5).
Definition ev_first : event :=
  Event (PyRef 1) (PyStr "x") Uninitialized (PyInt 5).

Definition f1 : function := Function "f" 1 7.
Definition f3 : function := Function "f" 3 7.
Definition f5 : function := Function "f" 5 7.
(** A method declaring [self] and one argument, and one declaring [self] and
    five. *)
Definition m2 : function := Function "m" 2 8.
Definition m6 : function := Function "m" 6 8.

(** The world after thread 1 has used its handler stack for the first
    time. *)
Definition world_one_stack : world :=
  set_thread_local (<[1 := [default_state]]> ∅) initial_world.

(** The wrapper 3 as the constructor builds it for the function [f1], and
    for the method [m2] bound to the object at address 9, with the notifier
    list 0 as owner. *)
Definition function_wrapper : wrapper :=
  Wrapper TraitChangeNotifyWrapper 3 Unset IsNone Unset
    (Some (Func f1)) (Some "call_1").
Definition method_wrapper : wrapper :=
  Wrapper TraitChangeNotifyWrapper 3 (Is 9%nat) (Is "m") (Is 0%nat) None
    (Some "rebind_call_1").

(** The world after the listener [f1] has been called with (5,), and after
    thread 1 has then looked up its handlers; the same with a re-raising
    record pushed on the stack of thread 1 beforehand. *)
Definition world_called : world :=
  add_effect (Called (Stored (Func f1)) [PyInt 5]) initial_world.
Definition world_called_handlers : world :=
  set_thread_local (<[1 := [default_state]]> ∅) world_called.
Definition reraising : NotificationExceptionHandlerState :=
  HandlerState _log_exception true false.
Definition world_reraise : world :=
  set_thread_local (<[1 := [default_state; reraising]]> ∅) initial_world.

(** A world in which the notifier list 0 holds the wrapper 3 and the object
    at address 9 is alive. *)
Definition world_owned : world :=
  {| thread_local := ∅; main_thread := None; ui_thread := -1;
     ui_handler := None; owners := <[0%nat := [3%nat]]> ∅;
     live := {[ 9%nat ]}; trace := [] |}.

(** ** Sequences of calls *)

(** The arguments of one call of [_push_handler]. *)
Record push_args : Type := PushArgs {
  pa_handler : option exc_handler;
  pa_reraise : bool;
  pa_main : bool;
  pa_locked : bool
}.

Definition push_with (tid : Z) (a : push_args)
    : M NotificationExceptionHandlerState :=
  _push_handler tid (pa_handler a) (pa_reraise a) (pa_main a) (pa_locked a).

(** One call of [push_exception_handler] or [pop_exception_handler]. *)
Inductive stack_op : Type :=
  | OpPush (a : push_args)
  | OpPop.

Definition run_op (tid : Z) (op : stack_op) : M unit :=
  match op with
  | OpPush a => exec! push_with tid a in ret tt
  | OpPop => _pop_handler tid
  end.

(** Calls made one after the other by a caller that goes on after each one
    that raises: the outcome of each call and the world at the end. *)
Fixpoint attempts (tid : Z) (ops : list stack_op) (w : world)
    : list (res unit) * world :=
  match ops with
  | [] => ([], w)
  | op :: ops' =>
      let (r, w1) := run_op tid op w in
      let (rs, w2) := attempts tid ops' w1 in
      (r :: rs, w2)
  end.

(** The pushes of a list of arguments in order, and [n] pops. *)
Fixpoint push_all (tid : Z) (l : list push_args) : M unit :=
  match l with
  | [] => ret tt
  | a :: l' => exec! push_with tid a in push_all tid l'
  end.

Fixpoint pop_times (tid : Z) (n : nat) : M unit :=
  match n with
  | O => ret tt
  | S n' => exec! pop_times tid n' in _pop_handler tid
  end.

(** What a call made on thread [tid] leaves alone: the handler stacks of the
    other threads, the notifier lists, the live objects and the ui
    settings. *)
Definition untouched_by (tid : Z) (w w' : world) : Prop :=
  (∀ t, t ≠ tid → thread_local w' !! t = thread_local w !! t) ∧
  owners w' = owners w ∧ live w' = live w ∧
  ui_thread w' = ui_thread w ∧ ui_handler w' = ui_handler w.

(** The outcome is a raised TraitNotificationError. *)
Definition raised_notification_error (r : res unit) : Prop :=
  ∃ e, r = Raise e ∧ exc_cls e = TraitNotificationError.

(** A handler of the user that raises [handler_error] whatever it is called
    for. *)
Definition handler_error : exc := Exc (UserError 1) "handler failed".
Definition failing_handlers : nat → event → exc → option exc :=
  fun _ _ _ => Some handler_error.

(** The world in which thread 1 has pushed a handler of its own over the
    default record, and the one in which it has pushed a locked record. *)
Definition world_user_handler : world :=
  set_thread_local
    (<[1 := [default_state; HandlerState (user_handler 0) false false]]> ∅)
    initial_world.
Definition world_two_threads : world :=
  set_thread_local
    (<[1 := [default_state]]> (<[2 := [default_state; reraising]]> ∅))
    initial_world.

(** ** What a notification may leave behind *)

Definition add_effects (l : list effect) (w : world) : world :=
  foldl (fun w x => add_effect x w) w l.

(** The effect hands a callable and its arguments over: to the calling
    thread, to the ui handler or to a new thread. *)
Definition delivery (x : effect) : bool :=
  match x with
  | Called _ _ | UiQueued _ _ | ThreadStarted _ _ => true
  | Handled _ _ _ => false
  end.

Definition at_most_one_delivery (dx : list effect) : Prop :=
  dx = [] ∨ ∃ d, dx = [d] ∧ delivery d = true.

Definition at_most_one_handling (ev : event) (hx : list effect) : Prop :=
  hx = [] ∨ ∃ h e, hx = [Handled h ev e].

(** The worlds a notification of [ev] on thread [tid] can end in: at most
    one delivery was recorded, and then, if the exception handler was
    reached, thread [tid] looked up its handlers and at most one handler was
    called for [ev]. *)
Inductive notified (tid : Z) (ev : event) (w : world) : world → Prop :=
  | notified_quiet dx :
      at_most_one_delivery dx → notified tid ev w (add_effects dx w)
  | notified_handled dx hx :
      at_most_one_delivery dx → at_most_one_handling ev hx →
      notified tid ev w
        (add_effects hx (snd (_get_handlers tid (add_effects dx w)))).

(** More concrete inputs: a method that declares nothing, the wrappers of
    the ui and thread classes for [f1], an unbound method registered with a
    target, a world in which thread 1 is the main thread, and one in which
    thread 5 has installed the ui handler 0. *)
Definition m0 : function := Function "m" 0 8.
Definition thread_wrapper : wrapper :=
  Wrapper NewTraitChangeNotifyWrapper 3 Unset IsNone Unset
    (Some (Func f1)) (Some "call_1").
Definition ui_wrapper : wrapper :=
  Wrapper FastUITraitChangeNotifyWrapper 3 Unset IsNone Unset
    (Some (Func f1)) (Some "call_1").
Definition unbound_wrapper : wrapper :=
  Wrapper TraitChangeNotifyWrapper 3 Unset IsNone Unset
    (Some (Method m2 None)) (Some "call_2").
Definition world_main : world :=
  set_main_thread (Some 1) world_one_stack.
Definition world_ui : world := set_ui 5 (Some 0%nat) initial_world.

(** * Properties of the exception handler stack *)

Ltac mstep :=
  unfold bind, ret, raise, modify, get, emit in *; simpl in *.

Lemma getitem_neg_last {A} (l : list A) (x : A) (w : world) :
  last l = Some x → getitem_neg l 0 w = (Ret x, w).
Proof.
  intros H. unfold getitem_neg.
  rewrite <- head_lookup, head_reverse, H. reflexivity.
Qed.

Lemma getitem_neg_empty {A} (w : world) :
  ∃ e, @getitem_neg A [] 0 w = (Raise e, w) ∧ exc_cls e = IndexError.
Proof. eexists. split; reflexivity. Qed.

Lemma nonempty_last {A} (l : list A) :
  (1 ≤ length l)%nat → ∃ x, last l = Some x.
Proof.
  intros H. destruct (last l) as [x|] eqn:E; [eauto|].
  apply last_None in E. subst. simpl in H. lia.
Qed.

(** [_get_handlers] on a thread that has a stack returns that stack and
    changes nothing. *)
Lemma get_handlers_existing tid w hs :
  thread_local w !! tid = Some hs → _get_handlers tid w = (Ret hs, w).
Proof. intros H. unfold _get_handlers. mstep. rewrite H. reflexivity. Qed.

(** Under the invariant [_get_handlers] returns a non-empty list, stores it
    for the thread, keeps the invariant and touches nothing else. *)
Lemma get_handlers_ok tid w :
  stacks_ok w →
  ∃ hs w1, _get_handlers tid w = (Ret hs, w1) ∧ (1 ≤ length hs)%nat ∧
           thread_local w1 !! tid = Some hs ∧ stacks_ok w1 ∧
           main_thread w1 = main_thread w ∧ trace w1 = trace w ∧
           owners w1 = owners w ∧ live w1 = live w.
Proof.
  intros [Hne Hmain]. unfold _get_handlers. mstep.
  destruct (thread_local w !! tid) as [hs|] eqn:E.
  - exists hs, w. repeat split; eauto.
  - destruct (main_thread w) as [m|] eqn:Em.
    + destruct (Hmain m eq_refl) as [hm Hm]. rewrite Hm. simpl.
      destruct (nonempty_last hm (Hne _ _ Hm)) as [top Htop].
      rewrite (getitem_neg_last _ _ _ Htop).
      eexists [top], _. split; [reflexivity|]. simpl.
      repeat split; auto.
      * apply lookup_insert_eq.
      * intros t hs. simpl. rewrite lookup_insert. case_decide.
        -- intros [= <-]. simpl. lia.
        -- apply Hne.
      * intros m' Hm'. simpl in *. rewrite lookup_insert. case_decide; eauto.
        apply Hmain. congruence.
    + eexists [default_state], _. split; [reflexivity|]. simpl.
      repeat split; auto.
      * apply lookup_insert_eq.
      * intros t hs. simpl. rewrite lookup_insert. case_decide.
        -- intros [= <-]. simpl. lia.
        -- apply Hne.
      * intros m' Hm'. simpl in Hm'. congruence.
Qed.

Lemma check_lock_locked hs w :
  top_locked hs = true →
  ∃ e, _check_lock hs w = (Raise e, w) ∧ exc_cls e = TraitNotificationError.
Proof.
  unfold top_locked, _check_lock. intros H.
  destruct (last hs) as [top|] eqn:E; [|discriminate].
  mstep. rewrite (getitem_neg_last _ _ _ E), H. eexists. split; reflexivity.
Qed.

Lemma check_lock_unlocked hs w :
  (1 ≤ length hs)%nat → top_locked hs = false → _check_lock hs w = (Ret tt, w).
Proof.
  unfold top_locked, _check_lock. intros Hlen H.
  destruct (nonempty_last hs Hlen) as [top E]. rewrite E in H.
  mstep. rewrite (getitem_neg_last _ _ _ E), H. reflexivity.
Qed.

Lemma getitem_neg_second {A} (l : list A) (x y : A) (w : world) :
  last l = Some y → getitem_neg (l ++ [x]) 1 w = (Ret y, w).
Proof.
  intros H. unfold getitem_neg. rewrite reverse_snoc. simpl.
  rewrite <- head_lookup, head_reverse, H. reflexivity.
Qed.

(** A first use only creates the stack: once [_get_handlers] has run, the
    operations behave as on the world it left. *)
Lemma pop_after_get tid w hs w1 :
  _get_handlers tid w = (Ret hs, w1) → thread_local w1 !! tid = Some hs →
  _pop_handler tid w = _pop_handler tid w1.
Proof.
  intros H H1. unfold _pop_handler, bind.
  rewrite H, (get_handlers_existing _ _ _ H1). reflexivity.
Qed.

Lemma push_after_get tid w hs w1 h r m l :
  _get_handlers tid w = (Ret hs, w1) → thread_local w1 !! tid = Some hs →
  _push_handler tid h r m l w = _push_handler tid h r m l w1.
Proof.
  intros H H1. unfold _push_handler, bind.
  rewrite H, (get_handlers_existing _ _ _ H1). reflexivity.
Qed.

Lemma pop_existing_fails tid w hs :
  thread_local w !! tid = Some hs → (1 ≤ length hs)%nat →
  length hs = 1%nat ∨ top_locked hs = true →
  ∃ e, _pop_handler tid w = (Raise e, w) ∧
       exc_cls e = TraitNotificationError.
Proof.
  intros H Hlen Hc. unfold _pop_handler, bind.
  rewrite (get_handlers_existing _ _ _ H).
  destruct (top_locked hs) eqn:El.
  - destruct (check_lock_locked hs w El) as (e & -> & He). eauto.
  - rewrite (check_lock_unlocked hs w Hlen El).
    destruct Hc as [Hc|Hc]; [|discriminate].
    rewrite decide_False by lia. eexists. split; reflexivity.
Qed.

Lemma pop_existing_succeeds tid w hs :
  thread_local w !! tid = Some hs → (1 < length hs)%nat →
  top_locked hs = false →
  _pop_handler tid w =
    (Ret tt, set_thread_local (<[tid := removelast hs]> (thread_local w)) w).
Proof.
  intros H Hlen El. unfold _pop_handler, bind.
  rewrite (get_handlers_existing _ _ _ H).
  rewrite (check_lock_unlocked hs w) by (auto; lia).
  rewrite decide_True by lia. reflexivity.
Qed.

Lemma push_existing_fails tid w hs h r m l :
  thread_local w !! tid = Some hs → top_locked hs = true →
  ∃ e, _push_handler tid h r m l w = (Raise e, w) ∧
       exc_cls e = TraitNotificationError.
Proof.
  intros H El. unfold _push_handler, bind.
  rewrite (get_handlers_existing _ _ _ H).
  destruct (check_lock_locked hs w El) as (e & -> & He). eauto.
Qed.

Lemma push_existing_succeeds tid w hs h r m l :
  thread_local w !! tid = Some hs → (1 ≤ length hs)%nat →
  top_locked hs = false →
  ∃ prev, last hs = Some prev ∧
    _push_handler tid h r m l w =
      (Ret prev, after_push tid (hs ++ [pushed_record h r l]) m w).
Proof.
  intros H Hlen El. destruct (nonempty_last hs Hlen) as [prev Hp].
  exists prev. split; [assumption|]. unfold _push_handler, bind.
  rewrite (get_handlers_existing _ _ _ H).
  rewrite (check_lock_unlocked hs w Hlen El). unfold modify, ret.
  destruct m; simpl;
    rewrite (getitem_neg_second hs _ prev _ Hp); reflexivity.
Qed.

Lemma stack_after_push tid hs m w :
  stack_of tid (after_push tid hs m w) = Some hs.
Proof.
  unfold stack_of, after_push. destruct m; simpl; apply lookup_insert_eq.
Qed.

Lemma top_locked_snoc hs x : top_locked (hs ++ [x]) = locked x.
Proof. unfold top_locked. rewrite last_snoc. reflexivity. Qed.

(** C6.  On the stack [hs] that [_get_handlers] hands out for the calling
    thread: [_pop_handler] raises TraitNotificationError when [hs] holds a
    single record or its top record is locked and pops otherwise;
    [_push_handler] raises TraitNotificationError when the top record is
    locked and appends otherwise; an operation that raises leaves the stack as
    it was.  From a single unlocked record [d], push, push, pop, pop ends on
    the stack [[d]] and one more pop raises TraitNotificationError. *)
Theorem handler_stack_push_pop (tid : Z) (w w1 : world)
    (hs : list NotificationExceptionHandlerState) :
  stacks_ok w →
  _get_handlers tid w = (Ret hs, w1) →
  (length hs = 1%nat ∨ top_locked hs = true →
     ∃ e, _pop_handler tid w = (Raise e, w1) ∧
          exc_cls e = TraitNotificationError ∧ stack_of tid w1 = Some hs) ∧
  (¬ (length hs = 1%nat ∨ top_locked hs = true) →
     ∃ w2, _pop_handler tid w = (Ret tt, w2) ∧
           stack_of tid w2 = Some (removelast hs)) ∧
  (∀ h r m l, top_locked hs = true →
     ∃ e, _push_handler tid h r m l w = (Raise e, w1) ∧
          exc_cls e = TraitNotificationError ∧ stack_of tid w1 = Some hs) ∧
  (∀ h r m l, top_locked hs = false →
     ∃ prev w2, _push_handler tid h r m l w = (Ret prev, w2) ∧
                last hs = Some prev ∧
                stack_of tid w2 = Some (hs ++ [pushed_record h r l])) ∧
  (∀ d h1 r1 m1 h2 r2 m2, hs = [d] → locked d = false →
     ∃ w4,
       (exec! _push_handler tid h1 r1 m1 false in
        exec! _push_handler tid h2 r2 m2 false in
        exec! _pop_handler tid in
        _pop_handler tid) w = (Ret tt, w4) ∧
       stack_of tid w4 = Some [d] ∧
       ∃ e, _pop_handler tid w4 = (Raise e, w4) ∧
            exc_cls e = TraitNotificationError).
Proof.
  intros Hok Hget.
  destruct (get_handlers_ok tid w Hok)
    as (hs' & w1' & Hget' & Hlen & Hst & _).
  rewrite Hget in Hget'. injection Hget' as <- <-.
  repeat split.
  - intros Hc. rewrite (pop_after_get _ _ _ _ Hget Hst).
    destruct (pop_existing_fails tid w1 hs Hst Hlen Hc) as (e & He & Hcls).
    eauto.
  - intros Hc. rewrite (pop_after_get _ _ _ _ Hget Hst).
    destruct (top_locked hs) eqn:El; [tauto|].
    rewrite (pop_existing_succeeds tid w1 hs Hst) by (auto; lia).
    eexists. split; [reflexivity|]. unfold stack_of. simpl.
    apply lookup_insert_eq.
  - intros h r m l El. rewrite (push_after_get _ _ _ _ _ _ _ _ Hget Hst).
    destruct (push_existing_fails tid w1 hs h r m l Hst El) as (e & He & Hc).
    eauto.
  - intros h r m l El. rewrite (push_after_get _ _ _ _ _ _ _ _ Hget Hst).
    destruct (push_existing_succeeds tid w1 hs h r m l Hst Hlen El)
      as (prev & Hp & He).
    exists prev. eexists. split; [exact He|]. split; [assumption|].
    apply stack_after_push.
  - intros d h1 r1 m1 h2 r2 m2 -> Hd.
    assert (Hd' : top_locked [d] = false) by exact Hd.
    unfold bind at 1. rewrite (push_after_get _ _ _ _ _ _ _ _ Hget Hst).
    destruct (push_existing_succeeds tid w1 [d] h1 r1 m1 false Hst Hlen Hd')
      as (p1 & _ & ->).
    set (s1 := pushed_record h1 r1 false).
    set (wa := after_push tid ([d] ++ [s1]) m1 w1).
    assert (Ha : thread_local wa !! tid = Some ([d] ++ [s1]))
      by apply stack_after_push.
    unfold bind at 1.
    destruct (push_existing_succeeds tid wa ([d] ++ [s1]) h2 r2 m2 false Ha)
      as (p2 & _ & ->); [simpl; lia | apply top_locked_snoc |].
    set (s2 := pushed_record h2 r2 false).
    set (wb := after_push tid (([d] ++ [s1]) ++ [s2]) m2 wa).
    assert (Hb : thread_local wb !! tid = Some (([d] ++ [s1]) ++ [s2]))
      by apply stack_after_push.
    unfold bind at 1.
    rewrite (pop_existing_succeeds tid wb _ Hb)
      by (first [rewrite top_locked_snoc; reflexivity | simpl; lia]).
    rewrite removelast_last.
    set (wc := set_thread_local _ wb).
    assert (Hc : thread_local wc !! tid = Some ([d] ++ [s1]))
      by (unfold wc; simpl; apply lookup_insert_eq).
    rewrite (pop_existing_succeeds tid wc _ Hc)
      by (first [rewrite top_locked_snoc; reflexivity | simpl; lia]).
    rewrite removelast_last.
    set (wd := set_thread_local _ wc).
    assert (Hdd : thread_local wd !! tid = Some [d])
      by (unfold wd; simpl; apply lookup_insert_eq).
    exists wd. split; [reflexivity|]. split; [exact Hdd|].
    destruct (pop_existing_fails tid wd [d] Hdd) as (e & He & Hcls);
      [simpl; lia | left; reflexivity |]. eauto.
Qed.

Lemma initial_world_ok : stacks_ok initial_world.
Proof.
  split.
  - intros t hs H. unfold initial_world in H. simpl in H.
    rewrite lookup_empty in H. discriminate.
  - intros m H. discriminate.
Qed.

Lemma stacks_ok_add_effect x w : stacks_ok w → stacks_ok (add_effect x w).
Proof. intros H. exact H. Qed.

Lemma stacks_ok_after_push tid hs m w :
  stacks_ok w → (1 ≤ length hs)%nat → stacks_ok (after_push tid hs m w).
Proof.
  intros [Hne Hmain] Hlen. unfold after_push.
  assert (Hins : ∀ t l, <[tid := hs]> (thread_local w) !! t = Some l →
                        (1 ≤ length l)%nat).
  { intros t l. rewrite lookup_insert. case_decide.
    - intros [= <-]. assumption.
    - apply Hne. }
  destruct m; split; simpl; auto.
  - intros m [= <-]. rewrite lookup_insert_eq. eauto.
  - intros m Hm. rewrite lookup_insert. case_decide; eauto.
Qed.

Lemma stacks_ok_push tid h r m l w :
  stacks_ok w → stacks_ok (snd (_push_handler tid h r m l w)).
Proof.
  intros Hok.
  destruct (get_handlers_ok tid w Hok)
    as (hs & w1 & Hget & Hlen & Hst & Hok1 & _).
  rewrite (push_after_get _ _ _ _ _ _ _ _ Hget Hst).
  destruct (top_locked hs) eqn:El.
  - destruct (push_existing_fails tid w1 hs h r m l Hst El) as (e & -> & _).
    assumption.
  - destruct (push_existing_succeeds tid w1 hs h r m l Hst Hlen El)
      as (prev & _ & ->).
    simpl. apply stacks_ok_after_push; [assumption|].
    rewrite length_app. simpl. lia.
Qed.

Lemma stacks_ok_pop tid w :
  stacks_ok w → stacks_ok (snd (_pop_handler tid w)).
Proof.
  intros Hok.
  destruct (get_handlers_ok tid w Hok)
    as (hs & w1 & Hget & Hlen & Hst & Hok1 & _).
  rewrite (pop_after_get _ _ _ _ Hget Hst).
  destruct (decide (length hs = 1%nat ∨ top_locked hs = true)) as [Hc|Hc].
  - destruct (pop_existing_fails tid w1 hs Hst Hlen Hc) as (e & -> & _).
    assumption.
  - assert (Hl : (1 < length hs)%nat) by lia.
    rewrite (pop_existing_succeeds tid w1 hs Hst Hl)
      by (destruct (top_locked hs); tauto).
    simpl. apply (stacks_ok_after_push tid (removelast hs) false w1 Hok1).
    rewrite removelast_firstn_len, length_take. lia.
Qed.

Lemma run_handler_stacks hb h ev e w :
  thread_local (snd (run_handler hb h ev e w)) = thread_local w ∧
  main_thread (snd (run_handler hb h ev e w)) = main_thread w.
Proof.
  unfold run_handler. mstep.
  destruct h as [|n]; [|destruct (hb n ev e)]; split; reflexivity.
Qed.

Lemma stacks_ok_same w w' :
  thread_local w' = thread_local w → main_thread w' = main_thread w →
  stacks_ok w → stacks_ok w'.
Proof. unfold stacks_ok. intros -> ->. trivial. Qed.

Lemma stacks_ok_handle hb tid ev e w :
  stacks_ok w → stacks_ok (snd (_handle_exception hb tid ev e w)).
Proof.
  intros Hok.
  destruct (get_handlers_ok tid w Hok)
    as (hs & w1 & Hget & Hlen & Hst & Hok1 & _).
  destruct (nonempty_last hs Hlen) as [top Htop].
  unfold _handle_exception, bind. rewrite Hget.
  rewrite (getitem_neg_last _ _ _ Htop).
  destruct (run_handler_stacks hb (handler top) ev e w1) as [Ht Hm].
  destruct (run_handler hb (handler top) ev e w1) as [[[]|e'] w2];
    simpl in Ht, Hm.
  - destruct (reraise_exceptions top || is_TraitNotificationError e);
      simpl; eapply stacks_ok_same; eauto.
  - simpl. eapply stacks_ok_same; eauto.
Qed.

(** C7.  The first use of the handler stack by a thread creates it with
    exactly one record: the record on top of the stack designated by a push
    with [main = True] if there is one, else the default record (the logging
    handler, not re-raising, not locked).  [_get_handlers], [_push_handler],
    [_pop_handler] and [_handle_exception] keep every stack non-empty. *)
Theorem handler_stack_lazy_nonempty
    (hb : nat → event → exc → option exc) (tid : Z) (w : world) :
  stacks_ok w →
  (stack_of tid w = None →
     ∃ r, _get_handlers tid w =
            (Ret [r], set_thread_local (<[tid := [r]]> (thread_local w)) w) ∧
          match main_thread w with
          | Some m => ∃ hm, stack_of m w = Some hm ∧ last hm = Some r
          | None => r = default_state
          end) ∧
  (∀ h r l prev w',
     _push_handler tid h r true l w = (Ret prev, w') →
     main_thread w' = Some tid) ∧
  stacks_ok (snd (_get_handlers tid w)) ∧
  (∀ h r m l, stacks_ok (snd (_push_handler tid h r m l w))) ∧
  stacks_ok (snd (_pop_handler tid w)) ∧
  (∀ ev e, stacks_ok (snd (_handle_exception hb tid ev e w))).
Proof.
  intros Hok. split; [|split; [|split; [|split; [|split]]]].
  - intros Hnone. unfold stack_of in *. destruct Hok as [Hne Hmain].
    unfold _get_handlers. mstep. rewrite Hnone.
    destruct (main_thread w) as [m|] eqn:Em.
    + destruct (Hmain m eq_refl) as [hm Hm]. rewrite Hm. simpl.
      destruct (nonempty_last hm (Hne _ _ Hm)) as [top Htop].
      rewrite (getitem_neg_last _ _ _ Htop). exists top.
      split; [reflexivity|]. eauto.
    + exists default_state. split; reflexivity.
  - intros h r l prev w' Hpush.
    destruct (get_handlers_ok tid w Hok)
      as (hs & w1 & Hget & Hlen & Hst & _).
    rewrite (push_after_get _ _ _ _ _ _ _ _ Hget Hst) in Hpush.
    destruct (top_locked hs) eqn:El.
    + destruct (push_existing_fails tid w1 hs h r true l Hst El)
        as (e & He & _). congruence.
    + destruct (push_existing_succeeds tid w1 hs h r true l Hst Hlen El)
        as (p & _ & He). rewrite He in Hpush. injection Hpush as _ <-.
      reflexivity.
  - destruct (get_handlers_ok tid w Hok) as (hs & w1 & -> & _ & _ & H & _).
    exact H.
  - intros. apply stacks_ok_push, Hok.
  - apply stacks_ok_pop, Hok.
  - intros. apply stacks_ok_handle, Hok.
Qed.

(** * Properties of the notify wrappers *)

Section WrapperFacts.

Variable hb : nat → event → exc → option exc.
Variable b : target → list value → option exc.
Variable ub : nat → target → list value → option exc.
Variable tid : Z.

Lemma small_nat (P : nat → Prop) (n : nat) :
  (n ≤ 4)%nat → P 0%nat → P 1%nat → P 2%nat → P 3%nat → P 4%nat → P n.
Proof.
  intros H H0 H1 H2 H3 H4.
  destruct n as [|[|[|[|[|n]]]]]; auto. lia.
Qed.

(** The method names [init] builds for up to four arguments are names the
    class defines. *)
Lemma call_name_resolves (n : nat) :
  (n ≤ 4)%nat →
  assoc ("call_" +:+ pretty (Z.of_nat n)) method_names = Some (call_ n) ∧
  assoc ("rebind_call_" +:+ pretty (Z.of_nat n)) method_names
    = Some (rebind_call_ n).
Proof.
  intros H. pattern n. apply small_nat; try assumption;
    split; vm_compute; reflexivity.
Qed.

(** What the constructor builds from a function or an unbound method. *)
Lemma new_wrapper_unbound c id handler owner target :
  (∀ f a, handler ≠ Method f (Some a)) →
  (co_argcount (callable_function handler) ≤ 4)%nat →
  new_wrapper c id handler owner target =
    Ret (Wrapper c id
           (match handler, target with Func _, Some t => Is t | _, _ => Unset end)
           IsNone
           (match handler, target with Func _, Some t => Is owner | _, _ => Unset end)
           (Some handler)
           (Some ("call_" +:+
                  pretty (Z.of_nat (co_argcount (callable_function handler)))))).
Proof.
  intros Hnb Hle. unfold new_wrapper, init.
  destruct handler as [f|f [a|]]; simpl in *.
  - destruct target; rewrite decide_False by lia; reflexivity.
  - exfalso. eapply Hnb. reflexivity.
  - rewrite decide_False by lia. reflexivity.
Qed.

(** What the constructor builds from a bound method. *)
Lemma new_wrapper_bound c id f recv owner target (n : nat) :
  co_argcount f = S n → (n ≤ 4)%nat →
  new_wrapper c id (Method f (Some recv)) owner target =
    Ret (Wrapper c id (Is recv) (Is (func_name f)) (Is owner) None
           (Some ("rebind_call_" +:+ pretty (Z.of_nat n)))).
Proof.
  intros Hco Hle. unfold new_wrapper, init. rewrite Hco.
  replace (Z.of_nat (S n) - 1) with (Z.of_nat n) by lia.
  rewrite decide_False by lia. reflexivity.
Qed.

(** The constructor raises exactly above four declared arguments. *)
Lemma new_wrapper_arity c id handler owner target :
  (declared_arity handler > 4 →
     new_wrapper c id handler owner target =
       Raise (Exc TraitNotificationError
                (dynamic_arity_message
                   (func_name (callable_function handler))
                   (declared_arity handler)))) ∧
  (declared_arity handler ≤ 4 →
     ∃ self, new_wrapper c id handler owner target = Ret self).
Proof.
  unfold new_wrapper, init.
  destruct handler as [f|f [a|]]; simpl; split; intros H.
  - destruct target; rewrite decide_True by lia; reflexivity.
  - destruct target; rewrite decide_False by lia; eauto.
  - rewrite decide_True by lia. reflexivity.
  - rewrite decide_False by lia. eauto.
  - rewrite decide_True by lia. reflexivity.
  - rewrite decide_False by lia. eauto.
Qed.

(** [__call__] on a freshly built wrapper runs the method of its class that
    [init] named. *)
Lemma call_of_new_unbound c id handler owner target self :
  (∀ f a, handler ≠ Method f (Some a)) →
  new_wrapper c id handler owner target = Ret self →
  ∃ n, (n ≤ 4)%nat ∧ co_argcount (callable_function handler) = n ∧
       w_class self = c ∧ w_handler self = Some handler ∧
       w_name self = IsNone ∧
       ∀ self', w_class self' = c →
                w_call_method self' = w_call_method self →
                call hb b ub tid self' = call_family c n hb b ub tid self'.
Proof.
  intros Hnb Hnew.
  destruct (new_wrapper_arity c id handler owner target) as [Hgt Hle].
  assert (Ha : (co_argcount (callable_function handler) ≤ 4)%nat).
  { destruct (decide (declared_arity handler > 4)) as [H|H].
    - rewrite (Hgt H) in Hnew. discriminate.
    - destruct handler as [f|f [a|]]; simpl in *; try lia.
      exfalso. eapply Hnb. reflexivity. }
  rewrite (new_wrapper_unbound _ _ _ _ _ Hnb Ha) in Hnew.
  injection Hnew as <-. eexists. split; [exact Ha|]. simpl.
  repeat split.
  intros self' Hc Hm. unfold call. rewrite Hm. cbn [w_call_method].
  destruct (call_name_resolves _ Ha) as [-> _].
  rewrite Hc. destruct c; reflexivity.
Qed.

Lemma call_of_new_bound c id f recv owner target self :
  (1 ≤ co_argcount f)%nat →
  new_wrapper c id (Method f (Some recv)) owner target = Ret self →
  ∃ n, (n ≤ 4)%nat ∧ co_argcount f = S n ∧
       self = Wrapper c id (Is recv) (Is (func_name f)) (Is owner) None
                (Some ("rebind_call_" +:+ pretty (Z.of_nat n))) ∧
       ∀ self', w_class self' = c →
                w_call_method self' = w_call_method self →
                call hb b ub tid self'
                  = rebind_call_family c n hb b ub tid self'.
Proof.
  intros Hpos Hnew.
  destruct (co_argcount f) as [|n] eqn:Hco; [lia|].
  destruct (new_wrapper_arity c id (Method f (Some recv)) owner target)
    as [Hgt Hle].
  assert (Ha : (n ≤ 4)%nat).
  { destruct (decide (n ≤ 4)%nat) as [H|H]; [assumption|].
    rewrite Hgt in Hnew; [discriminate|]. simpl. lia. }
  rewrite (new_wrapper_bound _ _ _ _ _ _ n Hco Ha) in Hnew.
  injection Hnew as <-. exists n. repeat split; auto.
  intros self' Hc Hm. unfold call. rewrite Hm. cbn [w_call_method].
  destruct (call_name_resolves _ Ha) as [_ ->].
  rewrite Hc. destruct c; reflexivity.
Qed.

End WrapperFacts.

Section WrapperClaims.

Variable hb : nat → event → exc → option exc.
Variable b : target → list value → option exc.
Variable ub : nat → target → list value → option exc.
Variable tid : Z.

Lemma static_init_ok (sc : static_class) (f : function) :
  (co_argcount f ≤ 4)%nat →
  ∃ t, argument_transforms sc !! Z.of_nat (co_argcount f) = Some t ∧
       static_init sc f = Ret (StaticWrapper sc t f).
Proof.
  intros H. unfold static_init. rewrite decide_False by lia.
  revert H. generalize (co_argcount f). intros n H.
  pattern n. apply small_nat; try assumption;
    destruct sc; eexists; split; reflexivity.
Qed.

Lemma old_guard (ev : event) :
  ev_old ev ≠ Uninitialized → negb (is_Uninitialized (ev_old ev)) = true.
Proof. destruct (ev_old ev); simpl; congruence. Qed.

Lemma rebind_live (recv : nat) (self : wrapper) (name : string) (w : world) :
  w_name self = Is name → recv ∈ live w →
  rebind recv self w = (Ret (Attr recv name), w).
Proof.
  intros Hn Hl. unfold rebind. mstep. rewrite Hn.
  rewrite decide_True by assumption. reflexivity.
Qed.

(** C1, as the code has it.  For an event with an initialised old value and
    a callback of [a] ≤ 4 declared arguments: a dynamic wrapper hands to its
    dispatch the entry of the per-attribute table of the specification (for a
    function, and for a bound method that declares [a] arguments after its
    receiver); a static any-trait wrapper calls its handler with the entry of
    the any-attribute table; a static per-attribute wrapper calls its handler
    with the entry of [static_per_attribute]. *)
Theorem argument_projection (a : nat) (ev : event) :
  (a ≤ 4)%nat →
  ev_old ev ≠ Uninitialized →
  ∃ per anyt stat,
    spec_per_attribute a ev = Some per ∧
    spec_any_attribute a ev = Some anyt ∧
    static_per_attribute a ev = Some stat ∧
    (∀ c id name fid owner target w,
       ∃ self,
         new_wrapper c id (Func (Function name a fid)) owner target = Ret self ∧
         call hb b ub tid self ev w =
           try_except_Exception
             (dispatch b ub tid self (Stored (Func (Function name a fid))) per)
             (handle_exception hb tid ev) w) ∧
    (∀ c id name fid recv owner target w,
       recv ∈ live w →
       ∃ self,
         new_wrapper c id (Method (Function name (S a) fid) (Some recv))
           owner target = Ret self ∧
         call hb b ub tid self ev w =
           try_except_Exception
             (dispatch b ub tid self (Attr recv name) per)
             (handle_exception hb tid ev) w) ∧
    (∀ name fid w,
       ∃ s,
         static_init StaticAnyTraitChangeNotifyWrapper (Function name a fid)
           = Ret s ∧
         static_call hb b tid s ev w =
           try_except_Exception
             (invoke b (Stored (Func (Function name a fid))) anyt)
             (handle_exception hb tid ev) w) ∧
    (∀ name fid w,
       ∃ s,
         static_init StaticTraitChangeNotifyWrapper (Function name a fid)
           = Ret s ∧
         static_call hb b tid s ev w =
           try_except_Exception
             (invoke b (Stored (Func (Function name a fid))) stat)
             (handle_exception hb tid ev) w).
Proof.
  intros Ha Hold. pose proof (old_guard ev Hold) as Hg.
  exists (call_args a ev).
  assert (Hany : ∃ anyt, spec_any_attribute a ev = Some anyt ∧
            ∀ t, argument_transforms StaticAnyTraitChangeNotifyWrapper
                   !! Z.of_nat a = Some t →
                 t (ev_object ev) (ev_name ev) (ev_old ev) (ev_new ev) = anyt).
  { pattern a. apply small_nat; try assumption;
      (eexists; split; [reflexivity|]; intros t [= <-]; reflexivity). }
  assert (Hst : ∃ stat, static_per_attribute a ev = Some stat ∧
            ∀ t, argument_transforms StaticTraitChangeNotifyWrapper
                   !! Z.of_nat a = Some t →
                 t (ev_object ev) (ev_name ev) (ev_old ev) (ev_new ev) = stat).
  { pattern a. apply small_nat; try assumption;
      (eexists; split; [reflexivity|]; intros t [= <-]; reflexivity). }
  destruct Hany as (anyt & Hanyt & Hany), Hst as (stat & Hstat & Hst).
  exists anyt, stat.
  split; [pattern a; apply small_nat; try assumption; reflexivity|].
  split; [assumption|]. split; [assumption|].
  split; [|split; [|split]].
  - intros c id name fid owner target w.
    set (f := Function name a fid).
    assert (Hnb : ∀ g x, Func f ≠ Method g (Some x)) by discriminate.
    rewrite (new_wrapper_unbound c id (Func f) owner target Hnb Ha).
    eexists. split; [reflexivity|].
    unfold call. cbn [w_call_method callable_function co_argcount f].
    destruct (call_name_resolves a Ha) as [-> _].
    destruct c; cbn [w_class]; unfold call_n, extended_call_n;
      rewrite ?Hg; reflexivity.
  - intros c id name fid recv owner target w Hlive.
    set (f := Function name (S a) fid).
    rewrite (new_wrapper_bound c id f recv owner target a eq_refl Ha).
    eexists. split; [reflexivity|].
    unfold call. cbn [w_call_method].
    destruct (call_name_resolves a Ha) as [_ ->].
    assert (Hr : ∀ self, w_name self = Is name →
              try_except_Exception (rebind_body b ub tid recv a self ev)
                (handle_exception hb tid ev) w =
              try_except_Exception
                (dispatch b ub tid self (Attr recv name) (call_args a ev))
                (handle_exception hb tid ev) w).
    { intros self Hn. unfold try_except_Exception, rebind_body, bind.
      rewrite (rebind_live recv self name w Hn Hlive). reflexivity. }
    destruct c; cbn [w_class];
      unfold rebind_call_n, extended_rebind_call_n; cbn [w_object];
      rewrite ?Hg; apply Hr; reflexivity.
  - intros name fid w. set (f := Function name a fid).
    destruct (static_init_ok StaticAnyTraitChangeNotifyWrapper f Ha)
      as (t & Ht & ->).
    eexists. split; [reflexivity|].
    unfold static_call, static_body. rewrite Hg.
    cbn [argument_transform s_handler]. rewrite (Hany t Ht). reflexivity.
  - intros name fid w. set (f := Function name a fid).
    destruct (static_init_ok StaticTraitChangeNotifyWrapper f Ha)
      as (t & Ht & ->).
    eexists. split; [reflexivity|].
    unfold static_call, static_body. rewrite Hg.
    cbn [argument_transform s_handler]. rewrite (Hst t Ht). reflexivity.
Qed.

(** C2, as the code has it.  With [old] the Uninitialized object, a static
    wrapper and a wrapper of class TraitChangeNotifyWrapper,
    FastUITraitChangeNotifyWrapper or NewTraitChangeNotifyWrapper built from a
    callback of 0 to 4 declared arguments return at once: the world, its trace
    and its handler stacks included, is the one they were called in.  An
    ExtendedTraitChangeNotifyWrapper runs its [try] statement whatever [old]
    is. *)
Theorem uninitialized_old_is_skipped (ev : event) (w : world) :
  ev_old ev = Uninitialized →
  (∀ s, static_call hb b tid s ev w = (Ret tt, w)) ∧
  (∀ c id handler owner target self,
     c ≠ ExtendedTraitChangeNotifyWrapper →
     0 ≤ declared_arity handler →
     new_wrapper c id handler owner target = Ret self →
     call hb b ub tid self ev w = (Ret tt, w)) ∧
  (∀ id f owner target self,
     new_wrapper ExtendedTraitChangeNotifyWrapper id (Func f) owner target
       = Ret self →
     call hb b ub tid self ev w =
       try_except_Exception
         (dispatch b ub tid self (Stored (Func f))
            (call_args (co_argcount f) ev))
         (handle_exception hb tid ev) w).
Proof.
  intros Hold. split; [|split].
  - intros s. unfold static_call. rewrite Hold. reflexivity.
  - intros c id handler owner target self Hc Hpos Hnew.
    destruct handler as [f|f [recv|]].
    + destruct (call_of_new_unbound hb b ub tid c id (Func f) owner target
                  self ltac:(discriminate) Hnew)
        as (n & Hn & _ & Hcls & _ & _ & Hcall).
      rewrite (Hcall self Hcls eq_refl).
      destruct c; try congruence; simpl; unfold call_n;
        rewrite Hold; reflexivity.
    + simpl in Hpos.
      destruct (call_of_new_bound hb b ub tid c id f recv owner target self
                  ltac:(lia) Hnew) as (n & Hn & _ & -> & Hcall).
      rewrite Hcall by reflexivity.
      destruct c; try congruence; simpl; unfold rebind_call_n; simpl;
        rewrite Hold; reflexivity.
    + destruct (call_of_new_unbound hb b ub tid c id (Method f None) owner
                  target self ltac:(discriminate) Hnew)
        as (n & Hn & _ & Hcls & _ & _ & Hcall).
      rewrite (Hcall self Hcls eq_refl).
      destruct c; try congruence; simpl; unfold call_n;
        rewrite Hold; reflexivity.
  - intros id f owner target self Hnew.
    destruct (call_of_new_unbound hb b ub tid _ id (Func f) owner target
                self ltac:(discriminate) Hnew)
      as (n & Hn & Hco & Hcls & Hh & _ & Hcall).
    rewrite (Hcall self Hcls eq_refl). simpl in Hco. subst n.
    unfold call_family, extended_call_n, try_except_Exception, call_body,
      bind, read_handler.
    rewrite Hh. reflexivity.
Qed.

(** C4.  A static wrapper cannot be built from a function that declares more
    than four arguments, a dynamic wrapper cannot be built from a callback
    that declares more than four, a bound method counted without its
    receiver: the constructor raises TraitNotificationError, the message
    holding the name of the callable and the count, and returns no instance.
    With 0 to 4 arguments the constructor returns an instance, and the
    [call_method] of a dynamic one is a method its class defines. *)
Theorem registration_arity_limit (sc : static_class) (f : function)
    (c : wrapper_class) (id : nat) (handler : callable) (owner : nat)
    (target : option nat) :
  (Z.of_nat (co_argcount f) > 4 →
     static_init sc f =
       Raise (Exc TraitNotificationError
         ("Invalid number of arguments for the static anytrait change notification handler: "
          +:+ func_name f +:+ ". A maximum of 4 arguments is allowed, but "
          +:+ pretty (Z.of_nat (co_argcount f)) +:+ " were specified."))) ∧
  (Z.of_nat (co_argcount f) ≤ 4 →
     ∃ s, static_init sc f = Ret s ∧ s_class s = sc ∧ s_handler s = f) ∧
  (declared_arity handler > 4 →
     new_wrapper c id handler owner target =
       Raise (Exc TraitNotificationError
         ("Invalid number of arguments for the dynamic trait change notification handler: "
          +:+ func_name (callable_function handler)
          +:+ ". A maximum of 4 arguments is allowed, but "
          +:+ pretty (declared_arity handler) +:+ " were specified."))) ∧
  (0 ≤ declared_arity handler ≤ 4 →
     ∃ self name m,
       new_wrapper c id handler owner target = Ret self ∧
       w_class self = c ∧ w_id self = id ∧
       w_call_method self = Some name ∧
       assoc name method_names = Some m).
Proof.
  split; [|split; [|split]].
  - intros H. unfold static_init. rewrite decide_True by assumption.
    reflexivity.
  - intros H.
    destruct (static_init_ok sc f ltac:(lia)) as (t & _ & ->). eauto.
  - intros H.
    destruct (new_wrapper_arity c id handler owner target) as [Hgt _].
    rewrite (Hgt H). reflexivity.
  - intros [H0 H4].
    destruct handler as [g|g [recv|]]; simpl in H0, H4.
    + rewrite (new_wrapper_unbound c id (Func g) owner target
                 ltac:(discriminate) ltac:(simpl; lia)).
      destruct (call_name_resolves (co_argcount g) ltac:(lia)) as [Hr _].
      do 3 eexists. repeat split. exact Hr.
    + destruct (co_argcount g) as [|n] eqn:Hco; [lia|].
      rewrite (new_wrapper_bound c id g recv owner target n Hco ltac:(lia)).
      destruct (call_name_resolves n ltac:(lia)) as [_ Hr].
      do 3 eexists. repeat split. exact Hr.
    + rewrite (new_wrapper_unbound c id (Method g None) owner target
                 ltac:(discriminate) ltac:(simpl; lia)).
      destruct (call_name_resolves (co_argcount g) ltac:(lia)) as [Hr _].
      do 3 eexists. repeat split. exact Hr.
Qed.

(** C10.  [equals] of a static notify wrapper is False for every argument,
    the wrapper itself included, so a search through static wrappers that
    matches by [equals] finds none. *)
Theorem static_equals_never_matches (self : static_wrapper) (h : pyobj)
    (registered : list static_wrapper) :
  static_equals self h = false ∧
  (∀ id, static_equals self (ObjWrapper id) = false) ∧
  static_equals self (ObjCallable (Func (s_handler self))) = false ∧
  List.find (fun s => static_equals s h) registered = None.
Proof.
  repeat split. induction registered as [|s l IH]; simpl; auto.
Qed.

Lemma handle_exception_outcome (ev : event) (e : exc) (w1 w2 : world)
    (hs : list NotificationExceptionHandlerState)
    (top : NotificationExceptionHandlerState) :
  _get_handlers tid w1 = (Ret hs, w2) →
  last hs = Some top →
  handler_returns hb (handler top) ev e →
  handle_exception hb tid ev e w1 =
    (if reraise_exceptions top || is_TraitNotificationError e
     then Raise e else Ret tt,
     add_effect (Handled (handler top) ev e) w2).
Proof.
  intros Hget Htop Hret.
  unfold handle_exception, _handle_exception, bind. rewrite Hget.
  rewrite (getitem_neg_last _ _ _ Htop).
  unfold run_handler, bind, emit, modify, ret, raise.
  destruct (handler top) as [|n]; simpl in Hret; [|rewrite Hret];
    destruct (reraise_exceptions top || is_TraitNotificationError e);
    reflexivity.
Qed.

Lemma try_handles (body : M unit) (ev : event) (e : exc) (w w1 : world)
    (r : res unit * world) :
  is_Exception e = true →
  body w = (Raise e, w1) →
  handle_exception hb tid ev e w1 = r →
  try_except_Exception body (handle_exception hb tid ev) w = r.
Proof.
  intros He Hb Hh. unfold try_except_Exception. rewrite Hb, He. exact Hh.
Qed.

(** C3, as the code has it.  Let a listener raise [e] in the [try] statement
    of a notify wrapper, under two conditions the [except Exception] clause
    and the unguarded call of the handler impose: [e] is an instance of
    Exception, and the handler of the record on top of the stack of the
    calling thread returns.  Then that handler has been called with (object,
    name, old, new), and the notification raises [e] again if the record
    re-raises or [e] is a TraitNotificationError, and returns otherwise.
    This holds for the static wrappers and for each [call_n] and
    [rebind_call_n] of the dynamic ones; a callback that raises when run
    inline makes the [try] statement raise. *)
Theorem listener_exception_is_handled (ev : event) (e : exc) (w1 w2 : world)
    (hs : list NotificationExceptionHandlerState)
    (top : NotificationExceptionHandlerState) :
  is_Exception e = true →
  _get_handlers tid w1 = (Ret hs, w2) →
  last hs = Some top →
  handler_returns hb (handler top) ev e →
  let outcome : res unit :=
    if reraise_exceptions top || is_TraitNotificationError e
    then Raise e else Ret tt in
  let after := add_effect (Handled (handler top) ev e) w2 in
  (∀ s w, ev_old ev ≠ Uninitialized →
     static_body b s ev w = (Raise e, w1) →
     static_call hb b tid s ev w = (outcome, after)) ∧
  (∀ n self w, ev_old ev ≠ Uninitialized →
     call_body b ub tid n self ev w = (Raise e, w1) →
     call_n hb b ub tid n self ev w = (outcome, after)) ∧
  (∀ n self obj w, ev_old ev ≠ Uninitialized →
     w_object self = Is obj →
     rebind_body b ub tid obj n self ev w = (Raise e, w1) →
     rebind_call_n hb b ub tid n self ev w = (outcome, after)) ∧
  (∀ n self w,
     call_body b ub tid n self ev w = (Raise e, w1) →
     extended_call_n hb b ub tid n self ev w = (outcome, after)) ∧
  (∀ n self obj w,
     w_object self = Is obj →
     rebind_body b ub tid obj n self ev w = (Raise e, w1) →
     extended_rebind_call_n hb b ub tid n self ev w = (outcome, after)) ∧
  (∀ self t args w, runs_inline tid self w → b t args = Some e →
     dispatch b ub tid self t args w
       = (Raise e, add_effect (Called t args) w)) ∧
  (∀ t args w, b t args = Some e →
     invoke b t args w = (Raise e, add_effect (Called t args) w)) ∧
  (outcome = Raise e ↔
     reraise_exceptions top = true ∨ is_TraitNotificationError e = true) ∧
  (outcome = Ret tt ↔
     reraise_exceptions top = false ∧ is_TraitNotificationError e = false).
Proof.
  intros He Hget Htop Hret outcome after.
  pose proof (handle_exception_outcome ev e w1 w2 hs top Hget Htop Hret)
    as Hh. fold outcome after in Hh.
  assert (Hinv : ∀ t args w, b t args = Some e →
            invoke b t args w = (Raise e, add_effect (Called t args) w)).
  { intros t args w Hb. unfold invoke. mstep. rewrite Hb. reflexivity. }
  split; [|split; [|split; [|split; [|split; [|split; [|split; [|split]]]]]]].
  - intros s w Hold Hb. unfold static_call. rewrite (old_guard ev Hold).
    exact (try_handles _ ev e w w1 _ He Hb Hh).
  - intros n self w Hold Hb. unfold call_n. rewrite (old_guard ev Hold).
    exact (try_handles _ ev e w w1 _ He Hb Hh).
  - intros n self obj w Hold Ho Hb. unfold rebind_call_n.
    rewrite Ho, (old_guard ev Hold).
    exact (try_handles _ ev e w w1 _ He Hb Hh).
  - intros n self w Hb. unfold extended_call_n.
    exact (try_handles _ ev e w w1 _ He Hb Hh).
  - intros n self obj w Ho Hb. unfold extended_rebind_call_n. rewrite Ho.
    exact (try_handles _ ev e w w1 _ He Hb Hh).
  - intros self t args w Hin Hb. unfold dispatch, runs_inline in *.
    destruct (w_class self); try (apply Hinv; assumption); [|contradiction].
    unfold bind, get. rewrite decide_True by assumption.
    apply Hinv. assumption.
  - exact Hinv.
  - unfold outcome.
    destruct (reraise_exceptions top), (is_TraitNotificationError e); simpl;
      split; intros H; auto; try discriminate; destruct H; discriminate.
  - unfold outcome.
    destruct (reraise_exceptions top), (is_TraitNotificationError e); simpl;
      split; intros H; auto; try discriminate; destruct H; discriminate.
Qed.

Lemma remove_first_None (x : nat) (l : list nat) :
  remove_first x l = None ↔ x ∉ l.
Proof.
  induction l as [|y l IH]; simpl.
  - split; [intros _; apply not_elem_of_nil | reflexivity].
  - destruct (decide (x = y)) as [->|Hne].
    + split; [discriminate|]. intros H. exfalso. apply H. left.
    + rewrite not_elem_of_cons. destruct (remove_first x l); simpl.
      * split; [discriminate|]. intros [_ H]. apply IH in H. discriminate.
      * split; [|reflexivity]. intros _. split; [assumption|].
        apply IH. reflexivity.
Qed.

(** [remove_first] takes out the first occurrence and nothing else. *)
Lemma remove_first_split (x : nat) (pre post : list nat) :
  x ∉ pre → remove_first x (pre ++ x :: post) = Some (pre ++ post).
Proof.
  induction pre as [|y pre IH]; simpl; intros H.
  - rewrite decide_True by reflexivity. reflexivity.
  - apply not_elem_of_cons in H as [Hne H].
    rewrite decide_False by assumption. rewrite (IH H). reflexivity.
Qed.

Lemma listener_deleted_present (self : wrapper) (l : nat) (w : world)
    (pre post : list nat) :
  w_owner self = Is l →
  owners w !!! l = pre ++ w_id self :: post → w_id self ∉ pre →
  listener_deleted self w =
    (Ret tt, deleted self,
     set_owners (<[l := pre ++ post]> (owners w)) w).
Proof.
  intros Ho Hl Hpre. unfold listener_deleted, try_except_ValueError.
  rewrite Ho. unfold list_remove. mstep.
  rewrite Hl, (remove_first_split _ _ _ Hpre). reflexivity.
Qed.

Lemma listener_deleted_absent (self : wrapper) (l : nat) (w : world) :
  w_owner self = Is l → w_id self ∉ owners w !!! l →
  listener_deleted self w = (Ret tt, deleted self, w).
Proof.
  intros Ho Hl. unfold listener_deleted, try_except_ValueError.
  rewrite Ho. unfold list_remove. mstep.
  apply remove_first_None in Hl. rewrite Hl. reflexivity.
Qed.

Lemma rebind_call_none (n : nat) (self : wrapper) (ev : event) (w : world) :
  w_object self = IsNone →
  rebind_call_n hb b ub tid n self ev w = (Ret tt, w) ∧
  extended_rebind_call_n hb b ub tid n self ev w = (Ret tt, w).
Proof.
  intros H. unfold rebind_call_n, extended_rebind_call_n. rewrite H.
  split; reflexivity.
Qed.

(** C5, as the code has it.  A wrapper built from a bound method that
    declares 0 to 4 arguments after its receiver does nothing when it is
    notified after [dispose()], and nothing after the weak reference callback
    [listener_deleted] has run for its receiver: no call, no handler, the
    world unchanged.  [dispose()] twice leaves any wrapper as [dispose()]
    once. *)
Theorem disposed_method_wrapper_is_silent (c : wrapper_class) (id : nat)
    (f : function) (recv owner : nat) (target : option nat) (self : wrapper)
    (ev : event) (w : world) :
  (1 ≤ co_argcount f)%nat →
  new_wrapper c id (Method f (Some recv)) owner target = Ret self →
  call hb b ub tid (dispose self) ev w = (Ret tt, w) ∧
  (∀ w0, ∃ w1,
     listener_deleted self w0 = (Ret tt, deleted self, w1) ∧
     call hb b ub tid (deleted self) ev w = (Ret tt, w)) ∧
  (∀ r : wrapper, dispose (dispose r) = dispose r).
Proof.
  intros Hpos Hnew.
  destruct (call_of_new_bound hb b ub tid c id f recv owner target self
              Hpos Hnew) as (n & Hn & Hco & -> & Hcall).
  split; [|split].
  - rewrite Hcall by reflexivity.
    destruct c; simpl; apply rebind_call_none; reflexivity.
  - intros w0.
    set (self := Wrapper c id (Is recv) (Is (func_name f)) (Is owner) None
                   (Some ("rebind_call_" +:+ pretty (Z.of_nat n)))).
    assert (Hc : call hb b ub tid (deleted self) ev w = (Ret tt, w)).
    { rewrite Hcall by reflexivity.
      destruct c; simpl; apply rebind_call_none; reflexivity. }
    destruct (remove_first id (owners w0 !!! owner)) as [xs|] eqn:E.
    + exists (set_owners (<[owner := xs]> (owners w0)) w0).
      split; [|exact Hc].
      unfold listener_deleted, try_except_ValueError, list_remove. mstep.
      rewrite E. reflexivity.
    + exists w0. split; [|exact Hc].
      apply (listener_deleted_absent self owner w0); [reflexivity|].
      apply remove_first_None. exact E.
  - intros r. reflexivity.
Qed.

(** What a registration keeps: either no method name and a stored handler
    that is not a bound method, or a method name. *)
Lemma registration_keeps (self : wrapper) :
  registration self →
  (w_name self = IsNone ∧
   ∃ c, w_handler self = Some c ∧ ∀ f a, c ≠ Method f (Some a)) ∨
  (∃ name, w_name self = Is name).
Proof.
  induction 1 as [c id handler owner target self Hnew| |]; try assumption.
  unfold new_wrapper, init in Hnew.
  destruct handler as [f|f [a|]]; simpl in Hnew.
  - destruct target;
      destruct (decide (Z.of_nat (co_argcount f) > 4)); try discriminate;
      injection Hnew as <-; left; simpl;
      (split; [reflexivity|]); eexists; (split; [reflexivity|]);
      discriminate.
  - destruct (decide (Z.of_nat (co_argcount f) - 1 > 4)); try discriminate.
    injection Hnew as <-. right. simpl. eauto.
  - destruct (decide (Z.of_nat (co_argcount f) > 4)); try discriminate.
    injection Hnew as <-. left. simpl.
    split; [reflexivity|]. eexists. split; [reflexivity|]. discriminate.
Qed.

(** [equals] case by case, for a wrapper whose stored handler is not a bound
    method. *)
Lemma equals_true_iff (self : wrapper) (h : pyobj) (w : world) :
  (∀ f a, w_handler self ≠ Some (Method f (Some a))) →
  fst (equals self h w) = Ret true ↔
    h = ObjWrapper (w_id self) ∨
    (∃ f a, h = ObjCallable (Method f (Some a)) ∧
            w_name self = Is (func_name f) ∧
            w_object self = Is a ∧ a ∈ live w) ∨
    (w_name self = IsNone ∧
     ∃ c, w_handler self = Some c ∧ h = ObjCallable c).
Proof.
  intros Hnb. unfold equals.
  destruct (decide (h = ObjWrapper (w_id self))) as [->|Hns].
  { simpl. split; auto. }
  assert (Hthird :
    ∀ m : M bool,
      m = match w_name self with
          | Unset => no_attribute "name"
          | IsNone =>
              match w_handler self with
              | Some c => ret (bool_decide (h = ObjCallable c))
              | None => no_attribute "handler"
              end
          | Is _ => ret false
          end →
      (fst (m w) = Ret true ↔
       w_name self = IsNone ∧
       ∃ c, w_handler self = Some c ∧ h = ObjCallable c)).
  { intros m ->. destruct (w_name self) as [| |s]; simpl.
    - split; [discriminate|]. intros [? _]. discriminate.
    - destruct (w_handler self) as [c|]; simpl.
      + split.
        * intros [= H]. apply bool_decide_eq_true in H. eauto.
        * intros (_ & c' & [= <-] & ->).
          rewrite bool_decide_eq_true_2; reflexivity.
      + split; [discriminate|]. intros (_ & c' & ? & _). discriminate.
    - split; [discriminate|]. intros [? _]. discriminate. }
  destruct h as [i|[g|g [a|]]|v];
    try (rewrite (Hthird _ eq_refl); split;
         [intros H; right; right; exact H
         |intros [H|[(g' & a' & H & _)|H]];
            [congruence | discriminate | exact H]]).
  split.
  - intros H. right. left. exists g, a. split; [reflexivity|].
    destruct (w_name self) as [| |s]; simpl in H; try discriminate.
    destruct (decide (func_name g = s)) as [<-|]; [|discriminate].
    destruct (w_object self) as [| |o]; simpl in H; try discriminate.
    unfold bind, get, ret in H. simpl in H.
    destruct (decide (o ∈ live w)) as [Hl|Hl]; injection H as H;
      [|discriminate].
    apply bool_decide_eq_true in H. injection H as ->. auto.
  - intros [H|[(g' & a' & [= <- <-] & Hn & Ho & Hl)|(Hn & c & Hc & [= <-])]].
    + congruence.
    + rewrite Hn, Ho. rewrite decide_True by reflexivity.
      unfold bind, get, ret. simpl. rewrite decide_True by assumption.
      rewrite bool_decide_eq_true_2; reflexivity.
    + exfalso. eapply Hnb. exact Hc.
Qed.

(** C8, as the code has it.  For every registration [self] and every argument
    [h], [equals] returns True exactly when (a) [h] is [self] itself, or (b)
    [h] is a bound method of the name [self] keeps whose receiver is the live
    referent of the weak reference of [self], in which case [self] is weakly
    bound, or (c) [self] keeps no method name, being built from a function or
    an unbound method whether or not it holds a weak reference to a target,
    and [h] equals the stored handler. *)
Theorem equals_characterised (self : wrapper) (h : pyobj) (w : world) :
  registration self →
  fst (equals self h w) = Ret true ↔
    h = ObjWrapper (w_id self) ∨
    (weakly_bound self ∧
     ∃ f a, h = ObjCallable (Method f (Some a)) ∧
            w_name self = Is (func_name f) ∧
            w_object self = Is a ∧ a ∈ live w) ∨
    (w_name self = IsNone ∧
     ∃ c, w_handler self = Some c ∧ h = ObjCallable c).
Proof.
  intros Hreg. unfold weakly_bound.
  destruct (registration_keeps self Hreg)
    as [(Hn & c & Hc & Hnb)|(name & Hn)].
  - rewrite equals_true_iff by (intros f a; rewrite Hc; intros [= ->];
                                eapply Hnb; reflexivity).
    split.
    + intros [H|[(f & a & H)|H]]; [auto| |auto].
      right. left. split; [|eauto]. destruct H as (_ & _ & Ho & _). eauto.
    + intros [H|[(_ & H)|H]]; auto.
  - split.
    + intros H. unfold equals in H.
      destruct (decide (h = ObjWrapper (w_id self))) as [->|Hns]; [auto|].
      right. left. rewrite Hn in *.
      destruct h as [i|[g|g [a|]]|v]; simpl in H; try discriminate.
      destruct (decide (func_name g = name)) as [<-|]; [|discriminate].
      destruct (w_object self) as [| |o]; simpl in H; try discriminate.
      unfold bind, get, ret in H. simpl in H.
      destruct (decide (o ∈ live w)) as [Hl|Hl]; injection H as H;
        [|discriminate].
      apply bool_decide_eq_true in H. injection H as ->.
      split; [eauto|]. eexists _, _. split; [reflexivity|]. auto.
    + intros [->|[(_ & f & a & -> & Hf & Ho & Hl)|(Hw & _)]].
      * unfold equals. rewrite decide_True by reflexivity. reflexivity.
      * unfold equals. rewrite decide_False by discriminate.
        rewrite Hf, Ho. rewrite decide_True by reflexivity.
        unfold bind, get, ret. simpl. rewrite decide_True by assumption.
        rewrite bool_decide_eq_true_2; reflexivity.
      * congruence.
Qed.

(** C9, as the code has it.  On a wrapper that has an owner,
    [listener_deleted] returns without raising, takes the first occurrence of
    the wrapper out of the owning list, leaves the world as it is when the
    wrapper is not in that list, and leaves the wrapper with [object] and
    [owner] None, after which every [rebind_call_n], and [__call__] of a
    wrapper built for a bound method, does nothing. *)
Theorem listener_deleted_cleans_up (self : wrapper) (l : nat) (w : world) :
  w_owner self = Is l →
  ∃ w',
    listener_deleted self w = (Ret tt, deleted self, w') ∧
    (∀ pre post,
       owners w !!! l = pre ++ w_id self :: post → w_id self ∉ pre →
       w' = set_owners (<[l := pre ++ post]> (owners w)) w ∧
       owners w' !!! l = pre ++ post) ∧
    (w_id self ∉ owners w !!! l → w' = w) ∧
    thread_local w' = thread_local w ∧ trace w' = trace w ∧
    w_object (deleted self) = IsNone ∧ w_owner (deleted self) = IsNone ∧
    (∀ n ev w2,
       rebind_call_n hb b ub tid n (deleted self) ev w2 = (Ret tt, w2) ∧
       extended_rebind_call_n hb b ub tid n (deleted self) ev w2
         = (Ret tt, w2)) ∧
    (∀ name n ev w2,
       w_call_method self = Some name →
       assoc name method_names = Some (rebind_call_ n) →
       call hb b ub tid (deleted self) ev w2 = (Ret tt, w2)).
Proof.
  intros Ho.
  assert (Hsilent : ∀ n ev w2,
      rebind_call_n hb b ub tid n (deleted self) ev w2 = (Ret tt, w2) ∧
      extended_rebind_call_n hb b ub tid n (deleted self) ev w2
        = (Ret tt, w2)).
  { intros. apply rebind_call_none. reflexivity. }
  assert (Hcall : ∀ name n ev w2,
      w_call_method self = Some name →
      assoc name method_names = Some (rebind_call_ n) →
      call hb b ub tid (deleted self) ev w2 = (Ret tt, w2)).
  { intros name n ev w2 Hm Ha. unfold call.
    change (w_call_method (deleted self)) with (w_call_method self).
    rewrite Hm, Ha. destruct (Hsilent n ev w2) as [H1 H2].
    destruct (w_class (deleted self)); assumption. }
  destruct (remove_first (w_id self) (owners w !!! l)) as [xs|] eqn:E.
  - exists (set_owners (<[l := xs]> (owners w)) w).
    split; [|split; [|split; [|repeat split; auto]]].
    + unfold listener_deleted, try_except_ValueError, list_remove.
      rewrite Ho. mstep. rewrite E. reflexivity.
    + intros pre post Hl Hpre.
      rewrite Hl, (remove_first_split _ _ _ Hpre) in E.
      injection E as <-. split; [reflexivity|].
      simpl. apply lookup_total_insert_eq.
    + intros Hl. apply remove_first_None in Hl. congruence.
  - exists w. split; [|split; [|split; [|repeat split; auto]]].
    + apply (listener_deleted_absent self l w); [assumption|].
      apply remove_first_None. exact E.
    + intros pre post Hl Hpre.
      rewrite Hl, (remove_first_split _ _ _ Hpre) in E. discriminate.
    + reflexivity.
Qed.

End WrapperClaims.

(** * The statements at concrete inputs *)

Lemma handler_stack_push_pop_witness :
  stacks_ok initial_world ∧
  _get_handlers 1 initial_world = (Ret [default_state], world_one_stack) ∧
  (∃ e, _pop_handler 1 initial_world = (Raise e, world_one_stack) ∧
        exc_cls e = TraitNotificationError ∧
        stack_of 1 world_one_stack = Some [default_state]) ∧
  (∃ w4,
     (exec! _push_handler 1 None false false false in
      exec! _push_handler 1 None false false false in
      exec! _pop_handler 1 in
      _pop_handler 1) initial_world = (Ret tt, w4) ∧
     stack_of 1 w4 = Some [default_state] ∧
     ∃ e, _pop_handler 1 w4 = (Raise e, w4) ∧
          exc_cls e = TraitNotificationError).
Proof.
  split; [exact initial_world_ok|]. split; [reflexivity|].
  destruct (handler_stack_push_pop 1 initial_world world_one_stack
              [default_state] initial_world_ok eq_refl)
    as (Hpop & _ & _ & _ & Hseq).
  split.
  - apply Hpop. left. reflexivity.
  - apply (Hseq default_state None false false None false false);
      reflexivity.
Defined.

Lemma handler_stack_lazy_nonempty_witness :
  stacks_ok initial_world ∧
  stack_of 1 initial_world = None ∧
  (∃ r, _get_handlers 1 initial_world =
          (Ret [r],
           set_thread_local (<[1 := [r]]> (thread_local initial_world))
             initial_world) ∧
        r = default_state) ∧
  stacks_ok (snd (_pop_handler 1 initial_world)) ∧
  stacks_ok (snd (_handle_exception quiet_handlers 1 ev_change boom
                    initial_world)).
Proof.
  split; [exact initial_world_ok|]. split; [reflexivity|].
  destruct (handler_stack_lazy_nonempty quiet_handlers 1 initial_world
              initial_world_ok)
    as (Hlazy & _ & _ & _ & Hpop & Hhandle).
  split; [|split].
  - destruct (Hlazy eq_refl) as (r & Hr & Hd). exists r. split; assumption.
  - exact Hpop.
  - apply Hhandle.
Defined.

(** The list aliased by [main_thread] is the very stack of the designating
    thread: thread 1 pushes a re-raising record with [main = True] and then a
    handler of its own; thread 2, on its first use, starts from the record
    that is on top of the stack of thread 1 at that moment. *)
Example main_thread_is_an_alias :
  ∃ w p1 p2,
    (exec! _push_handler 1 None true true false in
     _push_handler 1 (Some (user_handler 0)) false false false) initial_world
      = (Ret p1, w) ∧
    main_thread w = Some 1 ∧
    stack_of 1 w =
      Some [default_state; reraising; HandlerState (user_handler 0) false false] ∧
    stack_of 2 w = None ∧
    fst (_get_handlers 2 w)
      = Ret [HandlerState (user_handler 0) false false] ∧
    fst (_pop_handler 2 w) = Raise p2 ∧
    exc_cls p2 = TraitNotificationError.
Proof.
  eexists _, _, _. split; [vm_compute; reflexivity|].
  repeat split; vm_compute; reflexivity.
Qed.

(** The scenario of the specification: a listener of one argument on "x" is
    called once with (5,) when "x" changes from 0 to 5; when it raises
    ValueError under the default handler, the failure is logged and the
    notification returns. *)
Example notify_one_listener :
  call quiet_handlers quiet quiet_ui 1 function_wrapper ev_change
    initial_world = (Ret tt, world_called) ∧
  trace world_called = [Called (Stored (Func f1)) [PyInt 5]] ∧
  trace (snd (call quiet_handlers failing quiet_ui 1 function_wrapper
                ev_change initial_world))
    = [Called (Stored (Func f1)) [PyInt 5];
       Handled _log_exception ev_change boom].
Proof. repeat split. Qed.

(** C3 fails in two ways.  A listener that raises KeyboardInterrupt, which is
    no instance of Exception, passes through the [try] statement: the handler
    on top of the stack is not called, and the notification raises although
    that record does not re-raise and the exception is no
    TraitNotificationError.  And when the handler on top of the stack itself
    raises, the notification raises what the handler raised instead of
    returning, again under a record that does not re-raise and for an
    exception that is no TraitNotificationError. *)
Lemma listener_exception_not_always_handled :
  (let interrupt := Exc KeyboardInterrupt "" in
   let w := add_effect (Called (Stored (Func f1)) [PyInt 5]) world_one_stack in
   is_Exception interrupt = false ∧
   is_TraitNotificationError interrupt = false ∧
   _get_handlers 1 w = (Ret [default_state], w) ∧
   reraise_exceptions default_state = false ∧
   call quiet_handlers (fun _ _ => Some interrupt) quiet_ui 1
     function_wrapper ev_change world_one_stack = (Raise interrupt, w) ∧
   trace w = [Called (Stored (Func f1)) [PyInt 5]]) ∧
  (let top := HandlerState (user_handler 0) false false in
   let w := add_effect (Called (Stored (Func f1)) [PyInt 5])
              world_user_handler in
   is_Exception boom = true ∧
   is_TraitNotificationError boom = false ∧
   _get_handlers 1 w = (Ret [default_state; top], w) ∧
   reraise_exceptions top = false ∧
   call failing_handlers failing quiet_ui 1 function_wrapper ev_change
     world_user_handler
     = (Raise handler_error, add_effect (Handled (handler top) ev_change boom) w) ∧
   handler_error ≠ boom).
Proof.
  split; cbv zeta.
  - repeat split.
  - split; [reflexivity|]. split; [reflexivity|]. split; [reflexivity|].
    split; [reflexivity|]. split; [reflexivity|]. discriminate.
Qed.

(** A weak reference whose referent is gone while [listener_deleted] has not
    run yet: [getattr( obj(), self.name )] raises AttributeError inside the
    [try] statement and the handler is called. *)
Example dead_referent_before_callback :
  trace (snd (call quiet_handlers quiet quiet_ui 1 method_wrapper ev_change
                initial_world))
    = [Handled _log_exception ev_change (Exc AttributeError "m")].
Proof. reflexivity. Qed.

(** C1 fails for a static listener on one attribute: with three declared
    arguments it is called with (object, old, new), where the per-attribute
    table of the specification has (object, name, new). *)
Lemma static_trait_projection_differs :
  ∃ s args expected,
    static_init StaticTraitChangeNotifyWrapper f3 = Ret s ∧
    trace (snd (static_call quiet_handlers quiet 1 s ev_change initial_world))
      = [Called (Stored (Func f3)) args] ∧
    args = [PyRef 1; PyInt 0; PyInt 5] ∧
    spec_per_attribute 3 ev_change = Some expected ∧
    expected = [PyRef 1; PyStr "x"; PyInt 5] ∧
    args ≠ expected.
Proof.
  eexists _, _, _. split; [reflexivity|]. split; [reflexivity|].
  split; [reflexivity|]. split; [reflexivity|]. split; [reflexivity|].
  discriminate.
Qed.

Lemma argument_projection_witness :
  (1 ≤ 4)%nat ∧ ev_old ev_change ≠ Uninitialized ∧
  ∃ per,
    spec_per_attribute 1 ev_change = Some per ∧
    ∃ self,
      new_wrapper TraitChangeNotifyWrapper 3 (Func (Function "f" 1 7)) 0 None
        = Ret self ∧
      call quiet_handlers quiet quiet_ui 1 self ev_change initial_world =
        try_except_Exception
          (dispatch quiet quiet_ui 1 self (Stored (Func (Function "f" 1 7)))
             per)
          (handle_exception quiet_handlers 1 ev_change) initial_world.
Proof.
  split; [repeat constructor|]. split; [discriminate|].
  destruct (argument_projection quiet_handlers quiet quiet_ui 1 1 ev_change)
    as (per & anyt & stat & Hper & _ & _ & Hdyn & _);
    [repeat constructor | discriminate |].
  exists per. split; [exact Hper|]. apply Hdyn.
Defined.

(** C2 fails for the extended wrapper: it calls its handler although [old]
    is the Uninitialized object. *)
Lemma extended_wrapper_ignores_uninitialized :
  ∃ self,
    new_wrapper ExtendedTraitChangeNotifyWrapper 3 (Func f1) 0 None
      = Ret self ∧
    ev_old ev_first = Uninitialized ∧
    call quiet_handlers quiet quiet_ui 1 self ev_first initial_world =
      (Ret tt, add_effect (Called (Stored (Func f1)) [PyInt 5]) initial_world).
Proof. eexists. repeat split. Qed.

Lemma uninitialized_old_is_skipped_witness :
  ev_old ev_first = Uninitialized ∧
  ∃ self,
    new_wrapper TraitChangeNotifyWrapper 3 (Func f1) 0 None = Ret self ∧
    call quiet_handlers quiet quiet_ui 1 self ev_first initial_world
      = (Ret tt, initial_world).
Proof.
  split; [reflexivity|].
  destruct (uninitialized_old_is_skipped quiet_handlers quiet quiet_ui 1
              ev_first initial_world eq_refl) as (_ & Hdyn & _).
  eexists. split; [reflexivity|].
  apply (Hdyn TraitChangeNotifyWrapper 3%nat (Func f1) 0%nat None);
    [discriminate | discriminate | reflexivity].
Defined.

Lemma listener_exception_is_handled_witness :
  new_wrapper TraitChangeNotifyWrapper 3 (Func f1) 0 None
    = Ret function_wrapper ∧
  is_Exception boom = true ∧
  _get_handlers 1 world_called = (Ret [default_state], world_called_handlers) ∧
  call_body failing quiet_ui 1 1 function_wrapper ev_change initial_world
    = (Raise boom, world_called) ∧
  call quiet_handlers failing quiet_ui 1 function_wrapper ev_change
    initial_world
    = (Ret tt,
       add_effect (Handled _log_exception ev_change boom)
         world_called_handlers) ∧
  call quiet_handlers failing quiet_ui 1 function_wrapper ev_change
    world_reraise
    = (Raise boom,
       add_effect (Handled _log_exception ev_change boom)
         (add_effect (Called (Stored (Func f1)) [PyInt 5]) world_reraise)).
Proof.
  split; [reflexivity|]. split; [reflexivity|]. split; [reflexivity|].
  split; [reflexivity|]. split.
  - destruct (listener_exception_is_handled quiet_handlers failing quiet_ui 1
                ev_change boom world_called world_called_handlers
                [default_state] default_state eq_refl eq_refl eq_refl I)
      as (_ & Hcall & _).
    apply (Hcall 1%nat function_wrapper initial_world);
      [discriminate | reflexivity].
  - destruct (listener_exception_is_handled quiet_handlers failing quiet_ui 1
                ev_change boom
                (add_effect (Called (Stored (Func f1)) [PyInt 5]) world_reraise)
                (add_effect (Called (Stored (Func f1)) [PyInt 5]) world_reraise)
                [default_state; reraising] reraising
                eq_refl eq_refl eq_refl I)
      as (_ & Hcall & _).
    apply (Hcall 1%nat function_wrapper world_reraise);
      [discriminate | reflexivity].
Defined.

Lemma registration_arity_limit_witness :
  (∃ e, static_init StaticTraitChangeNotifyWrapper f5 = Raise e ∧
        exc_cls e = TraitNotificationError) ∧
  (∃ s, static_init StaticTraitChangeNotifyWrapper f1 = Ret s) ∧
  (∃ e, new_wrapper TraitChangeNotifyWrapper 3 (Method m6 (Some 9%nat)) 0 None
          = Raise e ∧
        exc_msg e =
          "Invalid number of arguments for the dynamic trait change notification handler: m. A maximum of 4 arguments is allowed, but 5 were specified.") ∧
  (∃ self, new_wrapper TraitChangeNotifyWrapper 3 (Method m2 (Some 9%nat))
             0 None = Ret self ∧
           w_call_method self = Some "rebind_call_1").
Proof.
  destruct (registration_arity_limit StaticTraitChangeNotifyWrapper f5
              TraitChangeNotifyWrapper 3 (Method m6 (Some 9%nat)) 0 None)
    as (Hs5 & _ & Hd6 & _).
  destruct (registration_arity_limit StaticTraitChangeNotifyWrapper f1
              TraitChangeNotifyWrapper 3 (Method m2 (Some 9%nat)) 0 None)
    as (_ & Hs1 & _ & Hd2).
  split; [|split; [|split]].
  - eexists. split; [apply Hs5; reflexivity | reflexivity].
  - destruct Hs1 as (s & Hs & _); [discriminate|]. exists s. exact Hs.
  - eexists. split; [apply Hd6; reflexivity | reflexivity].
  - destruct Hd2 as (self & name & m & Hnew & _ & _ & _ & _);
      [split; discriminate|].
    eexists. split; reflexivity.
Defined.

(** C5 fails for a wrapper of a plain function: after [dispose()] a
    notification still calls the function. *)
Lemma disposed_function_wrapper_still_calls :
  ∃ self,
    new_wrapper TraitChangeNotifyWrapper 3 (Func f1) 0 None = Ret self ∧
    w_object (dispose self) = IsNone ∧
    call quiet_handlers quiet quiet_ui 1 (dispose self) ev_change
      initial_world =
      (Ret tt, add_effect (Called (Stored (Func f1)) [PyInt 5]) initial_world).
Proof. eexists. repeat split. Qed.

Lemma disposed_method_wrapper_is_silent_witness :
  (1 ≤ co_argcount m2)%nat ∧
  ∃ self,
    new_wrapper TraitChangeNotifyWrapper 3 (Method m2 (Some 9%nat)) 0 None
      = Ret self ∧
    call quiet_handlers quiet quiet_ui 1 (dispose self) ev_change world_owned
      = (Ret tt, world_owned) ∧
    dispose (dispose self) = dispose self.
Proof.
  split; [repeat constructor|].
  eexists. split; [reflexivity|].
  destruct (disposed_method_wrapper_is_silent quiet_handlers quiet quiet_ui 1
              TraitChangeNotifyWrapper 3 m2 9 0 None _ ev_change world_owned
              ltac:(repeat constructor) eq_refl) as (Hd & _ & Hi).
  split; [exact Hd | apply Hi].
Defined.

Lemma equals_characterised_witness :
  registration method_wrapper ∧
  9%nat ∈ live world_owned ∧
  fst (equals method_wrapper (ObjCallable (Method m2 (Some 9%nat)))
         world_owned) = Ret true ∧
  fst (equals (dispose function_wrapper) (ObjCallable (Func f1)) world_owned)
    = Ret true.
Proof.
  assert (Hm : registration method_wrapper).
  { apply (reg_new TraitChangeNotifyWrapper 3 (Method m2 (Some 9%nat)) 0 None).
    reflexivity. }
  assert (Hf : registration (dispose function_wrapper)).
  { apply reg_dispose.
    apply (reg_new TraitChangeNotifyWrapper 3 (Func f1) 0 None).
    reflexivity. }
  assert (Hl : 9%nat ∈ live world_owned) by (vm_compute; reflexivity).
  split; [exact Hm|]. split; [exact Hl|]. split.
  - apply (equals_characterised method_wrapper
             (ObjCallable (Method m2 (Some 9%nat))) world_owned Hm).
    right. left. split; [eexists; reflexivity|]. exists m2, 9%nat.
    split; [reflexivity|]. split; [reflexivity|]. split; [reflexivity|].
    exact Hl.
  - apply (equals_characterised (dispose function_wrapper)
             (ObjCallable (Func f1)) world_owned Hf).
    right. right. split; [reflexivity|].
    eexists. split; reflexivity.
Defined.

(** C8 fails for a function registered with a target.  The wrapper holds a
    weak reference to the target, so it is weakly bound, and it keeps the
    function and no method name.  Asked about that function, which is neither
    the wrapper itself nor a bound method, [equals] returns True; asked about
    a bound method of the target it returns False. *)
Lemma equals_matches_weak_target_wrapper :
  ∃ self h,
    new_wrapper TraitChangeNotifyWrapper 3 (Func f1) 0 (Some 9%nat)
      = Ret self ∧
    registration self ∧
    weakly_bound self ∧
    w_object self = Is 9%nat ∧ 9%nat ∈ live world_owned ∧
    w_name self = IsNone ∧
    h = ObjCallable (Func f1) ∧
    h ≠ ObjWrapper (w_id self) ∧
    (∀ g a, h ≠ ObjCallable (Method g (Some a))) ∧
    equals self h world_owned = (Ret true, world_owned) ∧
    equals self (ObjCallable (Method f1 (Some 9%nat))) world_owned
      = (Ret false, world_owned).
Proof.
  eexists _, _. split; [reflexivity|].
  split;
    [apply (reg_new TraitChangeNotifyWrapper 3 (Func f1) 0 (Some 9%nat));
     reflexivity|].
  split; [eexists; reflexivity|].
  split; [reflexivity|]. split; [vm_compute; reflexivity|].
  split; [reflexivity|]. split; [reflexivity|].
  split; [discriminate|]. split; [intros g a; discriminate|].
  split; reflexivity.
Qed.

(** [equals] on a disposed method registration asked about a bound method
    of the name it keeps calls [self.object], which is None by then. *)
Example equals_after_dispose :
  ∃ e,
    equals (dispose method_wrapper) (ObjCallable (Method m2 (Some 9%nat)))
      world_owned = (Raise e, world_owned) ∧
    exc_cls e = TypeError.
Proof. eexists. split; reflexivity. Qed.

(** C9 fails on repetition and for a function with a target: a second run
    of [listener_deleted] finds [owner] None and raises AttributeError, and a
    wrapper of a function registered with a target still calls the function
    after [listener_deleted]. *)
Lemma listener_deleted_not_idempotent :
  (∃ self w1 e,
     new_wrapper TraitChangeNotifyWrapper 3 (Method m2 (Some 9%nat)) 0 None
       = Ret self ∧
     listener_deleted self world_owned = (Ret tt, deleted self, w1) ∧
     owners w1 !!! 0%nat = [] ∧
     listener_deleted (deleted self) w1 = (Raise e, deleted self, w1) ∧
     exc_cls e = AttributeError) ∧
  (∃ self w1,
     new_wrapper TraitChangeNotifyWrapper 3 (Func f1) 0 (Some 9%nat)
       = Ret self ∧
     listener_deleted self world_owned = (Ret tt, deleted self, w1) ∧
     call quiet_handlers quiet quiet_ui 1 (deleted self) ev_change w1 =
       (Ret tt, add_effect (Called (Stored (Func f1)) [PyInt 5]) w1)).
Proof.
  split.
  - eexists _, _, _. split; [reflexivity|]. split; [reflexivity|].
    split; [reflexivity|]. split; reflexivity.
  - eexists _, _. split; [reflexivity|]. split; reflexivity.
Qed.

Lemma listener_deleted_cleans_up_witness :
  new_wrapper TraitChangeNotifyWrapper 3 (Method m2 (Some 9%nat)) 0 None
    = Ret method_wrapper ∧
  w_owner method_wrapper = Is 0%nat ∧
  ∃ w',
    listener_deleted method_wrapper world_owned
      = (Ret tt, deleted method_wrapper, w') ∧
    owners w' !!! 0%nat = [] ∧
    call quiet_handlers quiet quiet_ui 1 (deleted method_wrapper) ev_change w'
      = (Ret tt, w').
Proof.
  split; [reflexivity|]. split; [reflexivity|].
  destruct (listener_deleted_cleans_up quiet_handlers quiet quiet_ui 1
              method_wrapper 0 world_owned eq_refl)
    as (w' & Hd & Hrem & _ & _ & _ & _ & _ & _ & Hcall).
  exists w'. split; [exact Hd|]. split.
  - destruct (Hrem [] []) as [_ Ho]; [reflexivity | apply not_elem_of_nil |].
    exact Ho.
  - apply (Hcall "rebind_call_1" 1%nat); reflexivity.
Defined.

(** * Further properties of the exception handler stack *)

Lemma after_both (m k p : M unit) (w w3 : world) :
  (exec! m in k) w = (Ret tt, w3) →
  (exec! m in exec! k in p) w = p w3.
Proof.
  unfold bind. destruct (m w) as [[a|e] w1]; [|discriminate].
  destruct (k w1) as [[[]|e] w2]; [|discriminate].
  intros [= ->]. reflexivity.
Qed.

Lemma after_push_frame (tid : Z)
    (hs : list NotificationExceptionHandlerState) (m : bool) (w : world) :
  (∀ t, t ≠ tid →
        thread_local (after_push tid hs m w) !! t = thread_local w !! t) ∧
  main_thread (after_push tid hs m w)
    = (if m then Some tid else main_thread w) ∧
  trace (after_push tid hs m w) = trace w.
Proof.
  unfold after_push. destruct m; simpl; repeat split; try reflexivity;
    intros t Ht; apply lookup_insert_ne; congruence.
Qed.

(** X1.  On a thread whose stack [hs] has an unlocked top, pushing any
    number of unlocked records and popping as many again ends on [hs]
    exactly; the stacks of the other threads are as before, while a
    designation as main thread made by one of the pushes stays. *)
Theorem pushes_then_pops_restore (tid : Z) (l : list push_args)
    (hs : list NotificationExceptionHandlerState) (w : world) :
  stack_of tid w = Some hs →
  (1 ≤ length hs)%nat →
  top_locked hs = false →
  Forall (fun a => pa_locked a = false) l →
  ∃ w',
    (exec! push_all tid l in pop_times tid (length l)) w = (Ret tt, w') ∧
    stack_of tid w' = Some hs ∧
    (∀ t, t ≠ tid → stack_of t w' = stack_of t w) ∧
    main_thread w' = (if existsb pa_main l then Some tid else main_thread w).
Proof.
  unfold stack_of. revert hs w.
  induction l as [|a l IH]; intros hs w Hst Hlen Hun Hall.
  - exists w. repeat split; assumption.
  - apply Forall_cons in Hall as [Ha Hall].
    destruct (push_existing_succeeds tid w hs (pa_handler a) (pa_reraise a)
                (pa_main a) (pa_locked a) Hst Hlen Hun) as (prev & _ & Hpush).
    set (rec := pushed_record (pa_handler a) (pa_reraise a) (pa_locked a))
      in *.
    set (wa := after_push tid (hs ++ [rec]) (pa_main a) w) in *.
    assert (Hsta : thread_local wa !! tid = Some (hs ++ [rec]))
      by apply stack_after_push.
    assert (Hlock : top_locked (hs ++ [rec]) = false)
      by (rewrite top_locked_snoc; exact Ha).
    destruct (IH (hs ++ [rec]) wa Hsta) as (wb & Hrun & Hstb & Hoth & Hmain);
      [rewrite length_app; simpl; lia | exact Hlock | exact Hall |].
    destruct (after_push_frame tid (hs ++ [rec]) (pa_main a) w)
      as (Hfr & Hfm & _). fold wa in Hfr, Hfm.
    assert (Hpop : _pop_handler tid wb =
              (Ret tt, set_thread_local
                         (<[tid := removelast (hs ++ [rec])]>
                            (thread_local wb)) wb)).
    { apply pop_existing_succeeds; [exact Hstb | | exact Hlock].
      rewrite length_app. simpl. lia. }
    rewrite removelast_last in Hpop.
    exists (set_thread_local (<[tid := hs]> (thread_local wb)) wb).
    split; [|split; [|split]].
    + simpl. unfold bind at 1. unfold bind at 1. unfold push_with.
      rewrite Hpush.
      change ((exec! push_all tid l in
               exec! pop_times tid (length l) in _pop_handler tid) wa
              = (Ret tt, set_thread_local (<[tid := hs]> (thread_local wb)) wb)).
      rewrite (after_both _ _ _ wa wb Hrun). exact Hpop.
    + simpl. apply lookup_insert_eq.
    + intros t Ht. simpl. rewrite lookup_insert_ne by congruence.
      rewrite (Hoth t Ht). apply Hfr. exact Ht.
    + simpl. rewrite Hmain, Hfm. destruct (pa_main a), (existsb pa_main l);
        reflexivity.
Qed.

Lemma pushes_then_pops_restore_witness :
  stack_of 1 world_one_stack = Some [default_state] ∧
  ∃ w',
    (exec! push_all 1 [PushArgs None true true false;
                       PushArgs (Some (user_handler 0)) false false false] in
     pop_times 1 2) world_one_stack = (Ret tt, w') ∧
    stack_of 1 w' = Some [default_state] ∧
    main_thread w' = Some 1.
Proof.
  split; [reflexivity|].
  destruct (pushes_then_pops_restore 1
              [PushArgs None true true false;
               PushArgs (Some (user_handler 0)) false false false]
              [default_state] world_one_stack eq_refl)
    as (w' & Hrun & Hst & _ & Hmain);
    [repeat constructor | reflexivity | repeat constructor |].
  exists w'. split; [exact Hrun|]. split; [exact Hst | exact Hmain].
Defined.

Lemma attempts_on_locked (tid : Z) (ops : list stack_op)
    (hs : list NotificationExceptionHandlerState) (w : world) :
  thread_local w !! tid = Some hs → (1 ≤ length hs)%nat →
  top_locked hs = true →
  ∃ rs, attempts tid ops w = (rs, w) ∧ length rs = length ops ∧
        Forall raised_notification_error rs.
Proof.
  intros Hst Hlen Hl. induction ops as [|op ops IH].
  - exists []. repeat split. constructor.
  - destruct IH as (rs & Hrs & Hn & Hall).
    assert (Hop : ∃ e, run_op tid op w = (Raise e, w) ∧
                       exc_cls e = TraitNotificationError).
    { destruct op as [a|]; simpl.
      - destruct (push_existing_fails tid w hs (pa_handler a) (pa_reraise a)
                    (pa_main a) (pa_locked a) Hst Hl) as (e & He & Hc).
        exists e. split; [|exact Hc]. unfold bind, push_with. rewrite He.
        reflexivity.
      - apply (pop_existing_fails tid w hs Hst Hlen). right. exact Hl. }
    destruct Hop as (e & He & Hc).
    exists (Raise e :: rs). simpl. rewrite He, Hrs.
    split; [reflexivity|]. split; [simpl; congruence|].
    constructor; [exists e; auto | exact Hall].
Qed.

(** X2.  A lock cannot be taken back.  Once a thread has pushed a record
    with [locked = True], every later [_push_handler] and [_pop_handler] of
    that thread raises TraitNotificationError, in whatever order and number
    they come, and the stack, with the world around it, stays as the locking
    push left it. *)
Theorem lock_is_permanent (tid : Z) (a : push_args)
    (hs : list NotificationExceptionHandlerState) (w : world) :
  stack_of tid w = Some hs →
  (1 ≤ length hs)%nat →
  top_locked hs = false →
  pa_locked a = true →
  ∃ prev w1,
    push_with tid a w = (Ret prev, w1) ∧
    stack_of tid w1
      = Some (hs ++ [HandlerState
                       (match pa_handler a with
                        | None => _log_exception | Some h => h end)
                       (pa_reraise a) true]) ∧
    ∀ ops, ∃ rs,
      attempts tid ops w1 = (rs, w1) ∧ length rs = length ops ∧
      Forall raised_notification_error rs.
Proof.
  unfold stack_of. intros Hst Hlen Hun Ha.
  destruct (push_existing_succeeds tid w hs (pa_handler a) (pa_reraise a)
              (pa_main a) (pa_locked a) Hst Hlen Hun) as (prev & _ & Hpush).
  exists prev. eexists. split; [exact Hpush|].
  assert (Hs : thread_local
                 (after_push tid
                    (hs ++ [pushed_record (pa_handler a) (pa_reraise a)
                              (pa_locked a)]) (pa_main a) w) !! tid
               = Some (hs ++ [pushed_record (pa_handler a) (pa_reraise a)
                                (pa_locked a)]))
    by apply stack_after_push.
  split.
  - rewrite Hs. unfold pushed_record. rewrite Ha. reflexivity.
  - intros ops. apply (attempts_on_locked tid ops _ _ Hs).
    + rewrite length_app. simpl. lia.
    + rewrite top_locked_snoc. exact Ha.
Qed.

Lemma lock_is_permanent_witness :
  stack_of 1 world_one_stack = Some [default_state] ∧
  ∃ prev w1,
    push_with 1 (PushArgs None false false true) world_one_stack
      = (Ret prev, w1) ∧
    ∃ rs,
      attempts 1 [OpPop; OpPush (PushArgs None false false false); OpPop] w1
        = (rs, w1) ∧
      length rs = 3%nat ∧ Forall raised_notification_error rs.
Proof.
  split; [reflexivity|].
  destruct (lock_is_permanent 1 (PushArgs None false false true)
              [default_state] world_one_stack eq_refl)
    as (prev & w1 & Hpush & _ & Hops);
    [repeat constructor | reflexivity | reflexivity |].
  exists prev, w1. split; [exact Hpush|].
  apply (Hops [OpPop; OpPush (PushArgs None false false false); OpPop]).
Defined.

Lemma untouched_refl (tid : Z) (w : world) : untouched_by tid w w.
Proof. repeat split. Qed.

Lemma untouched_stack (tid : Z)
    (hs : list NotificationExceptionHandlerState) (w : world) :
  untouched_by tid w (set_thread_local (<[tid := hs]> (thread_local w)) w).
Proof.
  repeat split. intros t Ht. simpl. apply lookup_insert_ne. congruence.
Qed.

Lemma untouched_trans (tid : Z) (w1 w2 w3 : world) :
  untouched_by tid w1 w2 → untouched_by tid w2 w3 → untouched_by tid w1 w3.
Proof.
  intros (H1 & H2 & H3 & H4 & H5) (K1 & K2 & K3 & K4 & K5).
  repeat split; try congruence.
  intros t Ht. rewrite (K1 t Ht). apply H1. exact Ht.
Qed.

(** [_get_handlers] writes the stack of the calling thread and nothing
    else. *)
Lemma get_handlers_frame (tid : Z) (w : world) :
  untouched_by tid w (snd (_get_handlers tid w)) ∧
  main_thread (snd (_get_handlers tid w)) = main_thread w ∧
  trace (snd (_get_handlers tid w)) = trace w.
Proof.
  unfold _get_handlers, getitem_neg. mstep.
  destruct (thread_local w !! tid); simpl.
  { split; [apply untouched_refl | auto]. }
  destruct (main_thread w) as [m|] eqn:Em; simpl.
  - destruct (reverse (default [] (thread_local w !! m)) !! 0%nat); simpl.
    + split; [apply untouched_stack | split; congruence].
    + split; [apply untouched_refl | split; congruence].
  - split; [apply untouched_stack | split; congruence].
Qed.

Lemma push_frame (tid : Z) (h : option exc_handler) (r m l : bool)
    (w : world) :
  untouched_by tid w (snd (_push_handler tid h r m l w)) ∧
  trace (snd (_push_handler tid h r m l w)) = trace w ∧
  (m = false → main_thread (snd (_push_handler tid h r m l w))
               = main_thread w).
Proof.
  destruct (get_handlers_frame tid w) as (Hu & Hm & Ht).
  unfold _push_handler, bind.
  destruct (_get_handlers tid w) as [[hs|e] w1]; simpl in *; [|auto].
  unfold _check_lock, getitem_neg, bind, ret, raise.
  destruct (reverse hs !! 0%nat) as [top|]; [|simpl; auto].
  destruct (locked top); [simpl; auto|].
  unfold modify. destruct m; simpl;
    (destruct (reverse (hs ++ [HandlerState
                 match h with Some h0 => h0 | None => _log_exception end
                 r l]) !! 1%nat); simpl;
     (split; [eapply untouched_trans; [exact Hu | apply untouched_stack]|]);
     split; auto; discriminate).
Qed.

Lemma pop_frame (tid : Z) (w : world) :
  untouched_by tid w (snd (_pop_handler tid w)) ∧
  trace (snd (_pop_handler tid w)) = trace w ∧
  main_thread (snd (_pop_handler tid w)) = main_thread w.
Proof.
  destruct (get_handlers_frame tid w) as (Hu & Hm & Ht).
  unfold _pop_handler, bind.
  destruct (_get_handlers tid w) as [[hs|e] w1]; simpl in *; [|auto].
  unfold _check_lock, getitem_neg, bind, ret, raise.
  destruct (reverse hs !! 0%nat) as [top|]; [|simpl; auto].
  destruct (locked top); [simpl; auto|].
  destruct (decide (1 < length hs)%nat); simpl; [|auto].
  split; [eapply untouched_trans; [exact Hu | apply untouched_stack]|].
  auto.
Qed.

(** X3.  The handler stacks are per thread.  Whatever [_get_handlers],
    [_push_handler] and [_pop_handler] do on one thread, raising or not, the
    stack of every other thread is as before, and so are the notifier lists
    and the ui settings; only a push with [main = True] changes which stack
    new threads start from. *)
Theorem stack_calls_stay_on_their_thread (tid : Z) (w : world) :
  untouched_by tid w (snd (_get_handlers tid w)) ∧
  (∀ h r m l, untouched_by tid w (snd (_push_handler tid h r m l w))) ∧
  untouched_by tid w (snd (_pop_handler tid w)) ∧
  main_thread (snd (_get_handlers tid w)) = main_thread w ∧
  (∀ h r l, main_thread (snd (_push_handler tid h r false l w))
            = main_thread w) ∧
  main_thread (snd (_pop_handler tid w)) = main_thread w.
Proof.
  split; [apply get_handlers_frame|].
  split; [intros; apply push_frame|].
  split; [apply pop_frame|].
  split; [apply get_handlers_frame|].
  split; [intros; apply push_frame; reflexivity|].
  apply pop_frame.
Qed.

(** Thread 1 pushes and pops while thread 2 keeps its two records. *)
Example other_thread_keeps_its_stack :
  stack_of 2 world_two_threads = Some [default_state; reraising] ∧
  stack_of 2 (snd (attempts 1
                     [OpPush (PushArgs None false true true); OpPop]
                     world_two_threads))
    = Some [default_state; reraising].
Proof. split; reflexivity. Qed.

(** X4.  When the handler on top of the stack raises, what it raises leaves
    [_handle_exception], and with it the notification, in place of the
    exception of the listener, whether or not the record re-raises; the
    records below the top are not consulted. *)
Theorem failing_handler_replaces_exception
    (hb : nat → event → exc → option exc)
    (b : target → list value → option exc)
    (ub : nat → target → list value → option exc) (tid : Z)
    (ev : event) (e e' : exc) (w1 w2 : world)
    (hs : list NotificationExceptionHandlerState)
    (top : NotificationExceptionHandlerState) (n : nat) :
  _get_handlers tid w1 = (Ret hs, w2) →
  last hs = Some top →
  handler top = user_handler n →
  hb n ev e = Some e' →
  _handle_exception hb tid ev e w1
    = (Raise e', add_effect (Handled (user_handler n) ev e) w2) ∧
  (∀ k self w,
     ev_old ev ≠ Uninitialized → is_Exception e = true →
     call_body b ub tid k self ev w = (Raise e, w1) →
     call_n hb b ub tid k self ev w
       = (Raise e', add_effect (Handled (user_handler n) ev e) w2)) ∧
  (∀ s w,
     ev_old ev ≠ Uninitialized → is_Exception e = true →
     static_body b s ev w = (Raise e, w1) →
     static_call hb b tid s ev w
       = (Raise e', add_effect (Handled (user_handler n) ev e) w2)).
Proof.
  intros Hget Htop Hh Hb.
  assert (Hhandle : _handle_exception hb tid ev e w1
            = (Raise e', add_effect (Handled (user_handler n) ev e) w2)).
  { unfold _handle_exception, bind. rewrite Hget.
    rewrite (getitem_neg_last _ _ _ Htop).
    unfold run_handler, bind, emit, modify, ret, raise.
    rewrite Hh, Hb. reflexivity. }
  split; [exact Hhandle|]. split.
  - intros k self w Hold He Hbody. unfold call_n.
    rewrite (old_guard ev Hold). unfold try_except_Exception.
    rewrite Hbody, He. exact Hhandle.
  - intros s w Hold He Hbody. unfold static_call.
    rewrite (old_guard ev Hold). unfold try_except_Exception.
    rewrite Hbody, He. exact Hhandle.
Qed.

Lemma failing_handler_replaces_exception_witness :
  _get_handlers 1 (add_effect (Called (Stored (Func f1)) [PyInt 5])
                     world_user_handler)
    = (Ret [default_state; HandlerState (user_handler 0) false false],
       add_effect (Called (Stored (Func f1)) [PyInt 5]) world_user_handler) ∧
  call_n failing_handlers failing quiet_ui 1 1 function_wrapper ev_change
    world_user_handler
    = (Raise handler_error,
       add_effect (Handled (user_handler 0) ev_change boom)
         (add_effect (Called (Stored (Func f1)) [PyInt 5])
            world_user_handler)).
Proof.
  split; [reflexivity|].
  destruct (failing_handler_replaces_exception failing_handlers failing
              quiet_ui 1 ev_change boom handler_error
              (add_effect (Called (Stored (Func f1)) [PyInt 5])
                 world_user_handler)
              (add_effect (Called (Stored (Func f1)) [PyInt 5])
                 world_user_handler)
              [default_state; HandlerState (user_handler 0) false false]
              (HandlerState (user_handler 0) false false) 0%nat
              eq_refl eq_refl eq_refl eq_refl) as (_ & Hcall & _).
  apply (Hcall 1%nat function_wrapper world_user_handler);
    [discriminate | reflexivity | reflexivity].
Defined.

(** * Further properties of the notify wrappers *)

Section NotificationShape.

Variable hb : nat → event → exc → option exc.
Variable b : target → list value → option exc.
Variable ub : nat → target → list value → option exc.
Variable tid : Z.

Lemma invoke_shape (t : target) (args : list value) (w : world) :
  snd (invoke b t args w) = add_effects [Called t args] w.
Proof.
  unfold invoke, bind, emit, modify, ret, raise.
  destruct (b t args); reflexivity.
Qed.

Lemma dispatch_shape (self : wrapper) (t : target) (args : list value)
    (w : world) :
  ∃ dx, at_most_one_delivery dx ∧
        snd (dispatch b ub tid self t args w) = add_effects dx w.
Proof.
  unfold dispatch. destruct (w_class self).
  - exists [Called t args]. split; [right; eauto|]. apply invoke_shape.
  - exists [Called t args]. split; [right; eauto|]. apply invoke_shape.
  - unfold bind, get. destruct (decide (tid = ui_thread w)).
    + exists [Called t args]. split; [right; eauto|]. apply invoke_shape.
    + destruct (ui_handler w) as [u|].
      * exists [UiQueued t args]. split; [right; eauto|].
        unfold emit, modify, ret, raise. destruct (ub u t args); reflexivity.
      * exists []. split; [left; reflexivity | reflexivity].
  - exists [ThreadStarted t args]. split; [right; eauto | reflexivity].
Qed.

Lemma call_body_shape (n : nat) (self : wrapper) (ev : event) (w : world) :
  ∃ dx, at_most_one_delivery dx ∧
        snd (call_body b ub tid n self ev w) = add_effects dx w.
Proof.
  unfold call_body, read_handler, bind.
  destruct (w_handler self) as [c|]; simpl.
  - destruct (dispatch_shape self (Stored c) (call_args n ev) w)
      as (dx & Hdx & H).
    exists dx. split; [exact Hdx|].
    destruct (dispatch b ub tid self (Stored c) (call_args n ev) w)
      as [[[]|e] w']; exact H.
  - exists []. split; [left; reflexivity | reflexivity].
Qed.

Lemma rebind_body_shape (obj n : nat) (self : wrapper) (ev : event)
    (w : world) :
  ∃ dx, at_most_one_delivery dx ∧
        snd (rebind_body b ub tid obj n self ev w) = add_effects dx w.
Proof.
  assert (Hr : (∃ t, rebind obj self w = (Ret t, w)) ∨
               (∃ e, rebind obj self w = (Raise e, w))).
  { unfold rebind, bind, get, ret, raise, no_attribute.
    destruct (w_name self); simpl; eauto.
    destruct (decide (obj ∈ live w)); eauto. }
  unfold rebind_body, bind. destruct Hr as [(t & ->)|(e & ->)].
  - destruct (dispatch_shape self t (call_args n ev) w) as (dx & Hdx & H).
    exists dx. split; [exact Hdx|].
    destruct (dispatch b ub tid self t (call_args n ev) w)
      as [[[]|e] w']; exact H.
  - exists []. split; [left; reflexivity | reflexivity].
Qed.

Lemma handle_shape (ev : event) (e : exc) (w : world) :
  ∃ hx, at_most_one_handling ev hx ∧
        snd (handle_exception hb tid ev e w)
          = add_effects hx (snd (_get_handlers tid w)).
Proof.
  unfold handle_exception, _handle_exception, bind.
  destruct (_get_handlers tid w) as [[hs|e0] w1]; simpl.
  - unfold getitem_neg, ret, raise.
    destruct (reverse hs !! 0%nat) as [top|]; simpl.
    + exists [Handled (handler top) ev e]. split; [right; eauto|].
      unfold run_handler, bind, emit, modify, ret, raise.
      destruct (handler top) as [|n]; simpl.
      * destruct (reraise_exceptions top || is_TraitNotificationError e);
          reflexivity.
      * destruct (hb n ev e); [reflexivity|].
        destruct (reraise_exceptions top || is_TraitNotificationError e);
          reflexivity.
    + exists []. split; [left; reflexivity | reflexivity].
  - exists []. split; [left; reflexivity | reflexivity].
Qed.

(** A [try] statement around a body that records at most one delivery. *)
Lemma try_shape (body : M unit) (ev : event) (w : world) :
  (∃ dx, at_most_one_delivery dx ∧ snd (body w) = add_effects dx w) →
  notified tid ev w
    (snd (try_except_Exception body (handle_exception hb tid ev) w)).
Proof.
  intros (dx & Hdx & H). unfold try_except_Exception.
  destruct (body w) as [[[]|e] w1]; simpl in H; subst w1.
  - apply notified_quiet. exact Hdx.
  - destruct (is_Exception e).
    + destruct (handle_shape ev e (add_effects dx w)) as (hx & Hhx & ->).
      apply notified_handled; assumption.
    + apply notified_quiet. exact Hdx.
Qed.

Lemma quiet_here (ev : event) (w : world) : notified tid ev w w.
Proof. apply (notified_quiet tid ev w []). left. reflexivity. Qed.

(** Every notification through a dynamic wrapper ends in a world of the
    shape [notified]. *)
Lemma call_notified (self : wrapper) (ev : event) (w : world) :
  notified tid ev w (snd (call hb b ub tid self ev w)).
Proof.
  unfold call. destruct (w_call_method self) as [name|];
    [|apply quiet_here].
  destruct (assoc name method_names) as [[n|n]|]; [| |apply quiet_here].
  - assert (Hc : notified tid ev w (snd (call_n hb b ub tid n self ev w))).
    { unfold call_n. destruct (negb (is_Uninitialized (ev_old ev)));
        [|apply quiet_here].
      apply try_shape, call_body_shape. }
    assert (He : notified tid ev w
                   (snd (extended_call_n hb b ub tid n self ev w))).
    { unfold extended_call_n. apply try_shape, call_body_shape. }
    destruct (w_class self); assumption.
  - assert (Hc : notified tid ev w
                   (snd (rebind_call_n hb b ub tid n self ev w))).
    { unfold rebind_call_n. destruct (w_object self) as [| |obj];
        try apply quiet_here.
      destruct (negb (is_Uninitialized (ev_old ev))); [|apply quiet_here].
      apply try_shape, rebind_body_shape. }
    assert (He : notified tid ev w
                   (snd (extended_rebind_call_n hb b ub tid n self ev w))).
    { unfold extended_rebind_call_n. destruct (w_object self) as [| |obj];
        try apply quiet_here.
      apply try_shape, rebind_body_shape. }
    destruct (w_class self); assumption.
Qed.

Lemma static_call_notified (s : static_wrapper) (ev : event) (w : world) :
  notified tid ev w (snd (static_call hb b tid s ev w)).
Proof.
  unfold static_call. destruct (negb (is_Uninitialized (ev_old ev)));
    [|apply quiet_here].
  apply try_shape. unfold static_body.
  eexists [Called _ _]. split; [right; eauto|].
  apply invoke_shape.
Qed.

Lemma add_effects_fields (l : list effect) (w : world) :
  thread_local (add_effects l w) = thread_local w ∧
  main_thread (add_effects l w) = main_thread w ∧
  owners (add_effects l w) = owners w ∧ live (add_effects l w) = live w ∧
  ui_thread (add_effects l w) = ui_thread w ∧
  ui_handler (add_effects l w) = ui_handler w ∧
  trace (add_effects l w) = trace w ++ l.
Proof.
  revert w. induction l as [|x l IH]; intros w; simpl.
  - rewrite app_nil_r. repeat split.
  - destruct (IH (add_effect x w)) as (H1 & H2 & H3 & H4 & H5 & H6 & H7).
    unfold add_effects in *. simpl in *.
    rewrite H1, H2, H3, H4, H5, H6, H7, <- app_assoc. repeat split.
Qed.

(** What a notification adds to the trace. *)
Lemma notified_trace (ev : event) (w w' : world) :
  notified tid ev w w' →
  ∃ dx hx, at_most_one_delivery dx ∧ at_most_one_handling ev hx ∧
           trace w' = trace w ++ dx ++ hx.
Proof.
  intros [dx Hdx|dx hx Hdx Hhx].
  - destruct (add_effects_fields dx w) as (_ & _ & _ & _ & _ & _ & H7).
    exists dx, []. split; [exact Hdx|]. split; [left; reflexivity|].
    rewrite app_nil_r. exact H7.
  - set (w0 := add_effects dx w).
    destruct (add_effects_fields dx w) as (_ & _ & _ & _ & _ & _ & H7).
    fold w0 in H7.
    destruct (get_handlers_frame tid w0) as (_ & _ & Gt).
    set (w1 := snd (_get_handlers tid w0)) in *.
    destruct (add_effects_fields hx w1) as (_ & _ & _ & _ & _ & _ & K7).
    exists dx, hx. split; [exact Hdx|]. split; [exact Hhx|].
    rewrite K7, Gt, H7, app_assoc. reflexivity.
Qed.

(** X6.  One notification delivers at most once and reaches at most one
    exception handler, after the delivery and for the event of the
    notification: the trace grows by nothing, by one delivery, by one handler
    call, or by one delivery followed by one handler call. *)
Theorem notification_delivers_at_most_once (self : wrapper)
    (s : static_wrapper) (ev : event) (w : world) :
  (∃ dx hx,
     at_most_one_delivery dx ∧ at_most_one_handling ev hx ∧
     trace (snd (call hb b ub tid self ev w)) = trace w ++ dx ++ hx) ∧
  (∃ dx hx,
     at_most_one_delivery dx ∧ at_most_one_handling ev hx ∧
     trace (snd (static_call hb b tid s ev w)) = trace w ++ dx ++ hx).
Proof.
  split.
  - apply (notified_trace ev w _ (call_notified self ev w)).
  - apply (notified_trace ev w _ (static_call_notified s ev w)).
Qed.

Lemma try_trace (body : M unit) (ev : event) (w w1 : world) (r : res unit) :
  body w = (r, w1) →
  ∃ hx, trace (snd (try_except_Exception body (handle_exception hb tid ev) w))
        = trace w1 ++ hx.
Proof.
  intros Hb. unfold try_except_Exception. rewrite Hb.
  destruct r as [[]|e]; [exists []; simpl; rewrite app_nil_r; reflexivity|].
  destruct (is_Exception e);
    [|exists []; simpl; rewrite app_nil_r; reflexivity].
  destruct (handle_shape ev e w1) as (hx & _ & ->).
  destruct (add_effects_fields hx (snd (_get_handlers tid w1)))
    as (_ & _ & _ & _ & _ & _ & ->).
  destruct (get_handlers_frame tid w1) as (_ & _ & ->). eauto.
Qed.

Lemma invoke_result (t : target) (args : list value) (w : world) :
  ∃ r, invoke b t args w = (r, add_effect (Called t args) w).
Proof.
  unfold invoke, bind, emit, modify, ret, raise.
  destruct (b t args); eauto.
Qed.

Lemma call_args_length (n : nat) (ev : event) :
  (n ≤ 4)%nat → length (call_args n ev) = n.
Proof.
  intros H. pattern n. apply small_nat; try assumption; reflexivity.
Qed.

(** X7.  A listener is called with as many arguments as it declares.  For a
    wrapper that calls inline, built from a callback of 0 to 4 declared
    arguments (a bound method counted without its receiver, which must be
    alive), a notification with an initialised old value first calls the
    callback, the stored one or the method looked up by name on the receiver,
    with exactly that many arguments; a static wrapper calls its handler with
    exactly [co_argcount] arguments. *)
Theorem listener_gets_declared_arity (c : wrapper_class) (id : nat)
    (handler : callable) (owner : nat) (target : option nat)
    (self : wrapper) (ev : event) (w : world) :
  c = TraitChangeNotifyWrapper ∨ c = ExtendedTraitChangeNotifyWrapper →
  new_wrapper c id handler owner target = Ret self →
  0 ≤ declared_arity handler →
  ev_old ev ≠ Uninitialized →
  (∀ f recv, handler = Method f (Some recv) → recv ∈ live w) →
  (∃ args rest,
     trace (snd (call hb b ub tid self ev w))
       = trace w ++
         Called (match handler with
                 | Method f (Some recv) => Attr recv (func_name f)
                 | _ => Stored handler
                 end) args :: rest ∧
     Z.of_nat (length args) = declared_arity handler) ∧
  (∀ sc f s,
     static_init sc f = Ret s →
     ∃ args rest,
       trace (snd (static_call hb b tid s ev w))
         = trace w ++ Called (Stored (Func f)) args :: rest ∧
       length args = co_argcount f).
Proof.
  intros Hc Hnew Hpos Hold Hlive. pose proof (old_guard ev Hold) as Hg.
  split.
  - assert (Hunbound :
      (∀ f a, handler ≠ Method f (Some a)) →
      ∃ args rest,
        trace (snd (call hb b ub tid self ev w))
          = trace w ++ Called (Stored handler) args :: rest ∧
        Z.of_nat (length args) = declared_arity handler).
    { intros Hnb.
      destruct (call_of_new_unbound hb b ub tid c id handler owner target
                  self Hnb Hnew)
        as (n & Hn & Hco & Hcls & Hh & _ & Hcall).
      rewrite (Hcall self Hcls eq_refl).
      assert (Hbody : ∃ r, call_body b ub tid n self ev w
                = (r, add_effect (Called (Stored handler) (call_args n ev)) w)).
      { unfold call_body, read_handler, bind. rewrite Hh. simpl.
        unfold dispatch. rewrite Hcls.
        destruct Hc as [-> | ->]; apply invoke_result. }
      destruct Hbody as (r & Hbody).
      destruct (try_trace _ ev w _ r Hbody) as (hx & Ht).
      exists (call_args n ev), hx. split.
      - destruct Hc as [-> | ->]; unfold call_family;
          unfold call_n, extended_call_n; rewrite ?Hg; cbv iota;
          (etransitivity; [exact Ht|]);
          simpl; rewrite <- app_assoc; reflexivity.
      - rewrite (call_args_length n ev Hn).
        destruct handler as [f|f [a|]]; simpl in *;
          [congruence | exfalso; eapply Hnb; reflexivity | congruence]. }
    destruct handler as [f|f [recv|]];
      [apply Hunbound; discriminate | | apply Hunbound; discriminate].
    simpl in Hpos.
    destruct (call_of_new_bound hb b ub tid c id f recv owner target self
                ltac:(lia) Hnew) as (n & Hn & Hco & Hself & Hcall).
    rewrite (Hcall self) by (rewrite Hself; reflexivity).
    assert (Hname : w_name self = Is (func_name f))
      by (rewrite Hself; reflexivity).
    assert (Hcls : w_class self = c) by (rewrite Hself; reflexivity).
    assert (Hobj : w_object self = Is recv) by (rewrite Hself; reflexivity).
    assert (Hbody : ∃ r, rebind_body b ub tid recv n self ev w
                = (r, add_effect
                        (Called (Attr recv (func_name f)) (call_args n ev)) w)).
    { unfold rebind_body, bind.
      rewrite (rebind_live recv self (func_name f) w Hname
                 (Hlive f recv eq_refl)).
      unfold dispatch. rewrite Hcls.
      destruct Hc as [-> | ->]; apply invoke_result. }
    destruct Hbody as (r & Hb).
    destruct (try_trace _ ev w _ r Hb) as (hx & Ht).
    exists (call_args n ev), hx. split.
    + destruct Hc as [Hc | Hc]; rewrite Hc; unfold rebind_call_family;
        unfold rebind_call_n, extended_rebind_call_n; rewrite Hobj;
        rewrite ?Hg; cbv iota;
        (etransitivity; [exact Ht|]);
        simpl; rewrite <- app_assoc; reflexivity.
    + rewrite (call_args_length n ev Hn). simpl. lia.
  - intros sc f s Hs.
    assert (Hle : (co_argcount f ≤ 4)%nat).
    { unfold static_init in Hs.
      destruct (decide (Z.of_nat (co_argcount f) > 4)); [discriminate|lia]. }
    destruct (static_init_ok sc f Hle) as (t & Ht & Hs').
    rewrite Hs' in Hs. injection Hs as <-. clear Hs'.
    assert (Hlen : length (t (ev_object ev) (ev_name ev) (ev_old ev)
                             (ev_new ev)) = co_argcount f).
    { revert t Ht. generalize (co_argcount f) Hle. intros n Hn.
      pattern n. apply small_nat; try assumption;
        destruct sc; intros t [= <-]; reflexivity. }
    destruct (invoke_result (Stored (Func f))
                (t (ev_object ev) (ev_name ev) (ev_old ev) (ev_new ev)) w)
      as (r & Hr).
    destruct (try_trace (static_body b (StaticWrapper sc t f) ev) ev w _ r Hr)
      as (hx & Hx).
    eexists _, hx. split; [|exact Hlen].
    unfold static_call. rewrite Hg. cbv iota.
    etransitivity; [exact Hx|]. simpl.
    rewrite <- app_assoc. reflexivity.
Qed.

(** X13.  A NewTraitChangeNotifyWrapper never sees what its listener does.
    Built from a function or an unbound method of up to four arguments and
    notified with an initialised old value, it starts one thread for the
    handler with the arguments of [call_n] and returns: whatever the listener
    would raise, no exception handler is called on the notifying thread and
    its handler stack is not even looked up. *)
Theorem new_thread_wrapper_returns_at_once (id : nat) (handler : callable)
    (owner : nat) (target : option nat) (self : wrapper) (ev : event)
    (w : world) :
  (∀ f a, handler ≠ Method f (Some a)) →
  new_wrapper NewTraitChangeNotifyWrapper id handler owner target
    = Ret self →
  ev_old ev ≠ Uninitialized →
  call hb b ub tid self ev w =
    (Ret tt,
     add_effect
       (ThreadStarted (Stored handler)
          (call_args (co_argcount (callable_function handler)) ev)) w).
Proof.
  intros Hnb Hnew Hold.
  destruct (call_of_new_unbound hb b ub tid _ id handler owner target self
              Hnb Hnew) as (n & Hn & Hco & Hcls & Hh & _ & Hcall).
  rewrite (Hcall self Hcls eq_refl). subst n. simpl.
  unfold call_n. rewrite (old_guard ev Hold).
  unfold try_except_Exception, call_body, read_handler, bind.
  rewrite Hh. simpl. unfold dispatch. rewrite Hcls. reflexivity.
Qed.

(** X14.  A FastUITraitChangeNotifyWrapper notified off the ui thread does
    not call its listener.  With a ui handler installed the handler and its
    arguments are handed to it, and when it returns the notification returns.
    With none installed (the state of the module before [set_ui_handler]) the
    call of [None] raises TypeError inside the [try] statement: the top
    exception handler is called for it and the listener is never run. *)
Theorem fast_ui_wrapper_off_the_ui_thread (id : nat) (handler : callable)
    (owner : nat) (target : option nat) (self : wrapper) (ev : event)
    (w : world) :
  (∀ f a, handler ≠ Method f (Some a)) →
  new_wrapper FastUITraitChangeNotifyWrapper id handler owner target
    = Ret self →
  ev_old ev ≠ Uninitialized →
  tid ≠ ui_thread w →
  let args := call_args (co_argcount (callable_function handler)) ev in
  (∀ u, ui_handler w = Some u → ub u (Stored handler) args = None →
     call hb b ub tid self ev w
       = (Ret tt, add_effect (UiQueued (Stored handler) args) w)) ∧
  (ui_handler w = None →
     ∃ e hx,
       exc_cls e = TypeError ∧
       at_most_one_handling ev hx ∧
       trace (snd (call hb b ub tid self ev w)) = trace w ++ hx ∧
       call hb b ub tid self ev w = handle_exception hb tid ev e w).
Proof.
  intros Hnb Hnew Hold Hui args.
  destruct (call_of_new_unbound hb b ub tid _ id handler owner target self
              Hnb Hnew) as (n & Hn & Hco & Hcls & Hh & _ & Hcall).
  rewrite (Hcall self Hcls eq_refl). subst n. simpl.
  unfold call_n. rewrite (old_guard ev Hold).
  unfold try_except_Exception, call_body, read_handler, bind.
  rewrite Hh. simpl. unfold dispatch. rewrite Hcls.
  unfold bind, get. rewrite decide_False by exact Hui.
  split.
  - intros u Hu Hret. rewrite Hu. unfold emit, modify, ret. fold args.
    rewrite Hret. reflexivity.
  - intros Hu. rewrite Hu. simpl.
    exists (Exc TypeError "'NoneType' object is not callable").
    destruct (handle_shape ev
                (Exc TypeError "'NoneType' object is not callable") w)
      as (hx & Hhx & Hs).
    exists hx. split; [reflexivity|]. split; [exact Hhx|].
    split; [|reflexivity]. rewrite Hs.
    destruct (add_effects_fields hx (snd (_get_handlers tid w)))
      as (_ & _ & _ & _ & _ & _ & ->).
    destruct (get_handlers_frame tid w) as (_ & _ & ->). reflexivity.
Qed.

(** X15.  [set_ui_handler] makes the thread that calls it the ui thread,
    whatever handler it installs.  From then on a
    FastUITraitChangeNotifyWrapper notified on that thread calls its listener
    inline, as a TraitChangeNotifyWrapper does, and the installed handler is
    not used. *)
Theorem set_ui_handler_claims_the_thread (h : option nat) (id : nat)
    (handler : callable) (owner : nat) (target : option nat)
    (self plain : wrapper) (ev : event) (w : world) :
  (∀ f a, handler ≠ Method f (Some a)) →
  new_wrapper FastUITraitChangeNotifyWrapper id handler owner target
    = Ret self →
  new_wrapper TraitChangeNotifyWrapper id handler owner target
    = Ret plain →
  ui_thread (snd (set_ui_handler tid h w)) = tid ∧
  ui_handler (snd (set_ui_handler tid h w)) = h ∧
  (exec! set_ui_handler tid h in call hb b ub tid self ev) w
    = (exec! set_ui_handler tid h in call hb b ub tid plain ev) w.
Proof.
  intros Hnb Hfast Hplain. split; [reflexivity|]. split; [reflexivity|].
  destruct (call_of_new_unbound hb b ub tid _ id handler owner target self
              Hnb Hfast) as (n & Hn & Hco & Hcls & Hh & _ & Hcall).
  destruct (call_of_new_unbound hb b ub tid _ id handler owner target plain
              Hnb Hplain) as (n' & Hn' & Hco' & Hcls' & Hh' & _ & Hcall').
  unfold bind, set_ui_handler, modify.
  rewrite (Hcall self Hcls eq_refl), (Hcall' plain Hcls' eq_refl).
  subst n n'. simpl. unfold call_n.
  destruct (negb (is_Uninitialized (ev_old ev))); [|reflexivity].
  unfold try_except_Exception, call_body, read_handler, bind.
  rewrite Hh, Hh'. simpl. unfold dispatch. rewrite Hcls, Hcls'.
  unfold bind, get. simpl. rewrite decide_True by reflexivity. reflexivity.
Qed.

End NotificationShape.

Section RegistrationLifecycle.

Variable hb : nat → event → exc → option exc.
Variable b : target → list value → option exc.
Variable ub : nat → target → list value → option exc.
Variable tid : Z.

(** The attributes of a wrapper the constructor returns. *)
Lemma new_wrapper_fields (c : wrapper_class) (id : nat) (handler : callable)
    (owner : nat) (target : option nat) (self : wrapper) :
  new_wrapper c id handler owner target = Ret self →
  w_class self = c ∧ w_id self = id ∧
  match handler with
  | Method f (Some recv) =>
      w_name self = Is (func_name f) ∧ w_object self = Is recv ∧
      w_owner self = Is owner ∧ w_handler self = None
  | Method f None =>
      w_name self = IsNone ∧ w_handler self = Some handler ∧
      w_object self = Unset ∧ w_owner self = Unset
  | Func f =>
      w_name self = IsNone ∧ w_handler self = Some handler ∧
      match target with
      | Some t => w_object self = Is t ∧ w_owner self = Is owner
      | None => w_object self = Unset ∧ w_owner self = Unset
      end
  end.
Proof.
  unfold new_wrapper, init. intros Hnew.
  destruct handler as [f|f [recv|]]; simpl in Hnew.
  - destruct target;
      destruct (decide (Z.of_nat (co_argcount f) > 4)); try discriminate;
      injection Hnew as <-; repeat split.
  - destruct (decide (Z.of_nat (co_argcount f) - 1 > 4)); try discriminate.
    injection Hnew as <-. repeat split.
  - destruct (decide (Z.of_nat (co_argcount f) > 4)); try discriminate.
    injection Hnew as <-. repeat split.
Qed.

(** X8.  A registration is found again by the callback it was made for:
    [equals] of a wrapper the constructor returned is True for the handler it
    was built from (the receiver of a bound method being alive) and for the
    wrapper itself.  After [dispose()] a wrapper of a function or unbound
    method still matches its handler, while a wrapper of a bound method
    raises TypeError when asked about that method, [self.object] being None. *)
Theorem equals_finds_the_registered_handler (c : wrapper_class) (id : nat)
    (handler : callable) (owner : nat) (target : option nat)
    (self : wrapper) (w : world) :
  new_wrapper c id handler owner target = Ret self →
  (∀ f recv, handler = Method f (Some recv) → recv ∈ live w) →
  equals self (ObjCallable handler) w = (Ret true, w) ∧
  equals self (ObjWrapper id) w = (Ret true, w) ∧
  ((∀ f recv, handler ≠ Method f (Some recv)) →
     equals (dispose self) (ObjCallable handler) w = (Ret true, w)) ∧
  (∀ f recv, handler = Method f (Some recv) →
     ∃ e, equals (dispose self) (ObjCallable handler) w = (Raise e, w) ∧
          exc_cls e = TypeError).
Proof.
  intros Hnew Hlive.
  destruct (new_wrapper_fields c id handler owner target self Hnew)
    as (Hc & Hid & Hf).
  assert (Hself : equals self (ObjWrapper id) w = (Ret true, w)).
  { unfold equals. rewrite Hid. rewrite decide_True by reflexivity.
    reflexivity. }
  assert (Hunbound : ∀ self', w_name self' = IsNone →
            w_handler self' = Some handler →
            (∀ f recv, handler ≠ Method f (Some recv)) →
            equals self' (ObjCallable handler) w = (Ret true, w)).
  { intros self' Hn Hh Hnb. unfold equals.
    rewrite decide_False by discriminate. rewrite Hn, Hh.
    destruct handler as [f|f [recv|]];
      [|exfalso; eapply Hnb; reflexivity|];
      unfold ret; rewrite bool_decide_eq_true_2; reflexivity. }
  destruct handler as [f|f [recv|]].
  - destruct Hf as (Hn & Hh & _).
    split; [apply Hunbound; auto; discriminate|]. split; [exact Hself|].
    split; [|discriminate].
    intros _. apply Hunbound; auto; discriminate.
  - destruct Hf as (Hn & Ho & _ & _).
    split; [|split; [exact Hself|split]].
    + unfold equals. rewrite decide_False by discriminate.
      rewrite Hn, Ho. rewrite decide_True by reflexivity.
      unfold bind, get, ret. simpl.
      rewrite decide_True by (apply (Hlive f recv); reflexivity).
      rewrite bool_decide_eq_true_2; reflexivity.
    + intros Hnb. exfalso. eapply Hnb. reflexivity.
    + intros f' recv' _. eexists. unfold equals.
      rewrite decide_False by discriminate.
      change (w_name (dispose self)) with (w_name self). rewrite Hn.
      rewrite decide_True by reflexivity. simpl. split; reflexivity.
  - destruct Hf as (Hn & Hh & _).
    split; [apply Hunbound; auto; discriminate|]. split; [exact Hself|].
    split; [|discriminate].
    intros _. apply Hunbound; auto; discriminate.
Qed.

(** X10.  A bound method that declares no positional argument at all, not
    even its receiver, is accepted by the constructor, which names the method
    [rebind_call_-1]; the wrapper has no such method, so every notification,
    whatever the event and the class of the wrapper, raises AttributeError
    out of [__call__], past the [try] statements: nothing is called, no
    exception handler sees it, the world is unchanged. *)
Theorem method_without_arguments_cannot_be_notified (c : wrapper_class)
    (id : nat) (f : function) (recv owner : nat) (target : option nat) :
  co_argcount f = 0%nat →
  ∃ self,
    new_wrapper c id (Method f (Some recv)) owner target = Ret self ∧
    w_call_method self = Some "rebind_call_-1" ∧
    ∀ ev w, ∃ e,
      call hb b ub tid self ev w = (Raise e, w) ∧
      exc_cls e = AttributeError.
Proof.
  intros Hco. unfold new_wrapper, init. rewrite Hco. simpl.
  eexists. split; [reflexivity|]. split; [reflexivity|].
  intros ev w. eexists. split; reflexivity.
Qed.

Lemma remove_first_keeps (x : nat) (l xs : list nat) :
  remove_first x l = Some xs →
  filter (fun y => y ≠ x) xs = filter (fun y => y ≠ x) l ∧
  length l = S (length xs) ∧
  (NoDup l → x ∉ xs).
Proof.
  revert xs. induction l as [|y l IH]; intros xs; simpl; [discriminate|].
  destruct (decide (x = y)) as [<-|Hne].
  - intros [= <-]. split; [|split].
    + rewrite filter_cons_False by (intros H; apply H; reflexivity).
      reflexivity.
    + reflexivity.
    + intros Hnd. apply NoDup_cons in Hnd as [H _]. exact H.
  - destruct (remove_first x l) as [xs'|]; simpl; [|discriminate].
    intros [= <-]. destruct (IH xs' eq_refl) as (Hf & Hl & Hn).
    split; [|split].
    + rewrite !filter_cons_True by congruence. rewrite Hf. reflexivity.
    + simpl. rewrite Hl. reflexivity.
    + intros Hnd. apply NoDup_cons in Hnd as [_ Hnd].
      apply not_elem_of_cons. split; [exact Hne | apply Hn, Hnd].
Qed.

(** X11.  The cleanup takes out nothing but the wrapper.  After
    [listener_deleted] on a wrapper with an owner, the owning list holds its
    other entries in their order; it is shorter by one exactly when the
    wrapper was in it; a list without repetitions no longer holds the
    wrapper; every other notifier list is as before. *)
Theorem listener_deleted_spares_the_others (self : wrapper) (l : nat)
    (w : world) :
  w_owner self = Is l →
  let w' := snd (listener_deleted self w) in
  let before := owners w !!! l in
  let after : list nat := owners w' !!! l in
  filter (fun y => y ≠ w_id self) after
    = filter (fun y => y ≠ w_id self) before ∧
  (w_id self ∈ before → length before = S (length after)) ∧
  (w_id self ∉ before → after = before) ∧
  (NoDup before → w_id self ∉ after) ∧
  (∀ k : nat, k ≠ l → (owners w' !!! k : list nat) = owners w !!! k).
Proof.
  intros Ho. simpl.
  destruct (remove_first (w_id self) (owners w !!! l)) as [xs|] eqn:E.
  - assert (Hd : listener_deleted self w
                 = (Ret tt, deleted self,
                    set_owners (<[l := xs]> (owners w)) w)).
    { unfold listener_deleted, try_except_ValueError, list_remove.
      rewrite Ho. mstep. rewrite E. reflexivity. }
    rewrite Hd. simpl. rewrite lookup_total_insert_eq.
    destruct (remove_first_keeps _ _ _ E) as (Hf & Hl & Hn).
    split; [exact Hf|]. split; [intros _; exact Hl|].
    split.
    { intros Hnot. apply remove_first_None in Hnot. congruence. }
    split; [exact Hn|].
    intros k Hk. apply lookup_total_insert_ne. congruence.
  - assert (Hnot : w_id self ∉ owners w !!! l)
      by (apply remove_first_None; exact E).
    rewrite (listener_deleted_absent self l w Ho Hnot). simpl.
    split; [reflexivity|]. split; [intros Hin; contradiction|].
    split; [reflexivity|]. split; [intros _; exact Hnot|]. reflexivity.
Qed.

(** X12.  The constructor sets the cleanup up for a bound method and for a
    function given a target, and for nothing else; a target given along with
    a method is ignored.  On the wrapper it returns, [listener_deleted]
    returns normally in those two cases, and otherwise (a function without
    target, an unbound method with or without target) raises AttributeError
    for the missing [owner] and changes neither the wrapper nor the world. *)
Theorem cleanup_is_set_up_for_weak_registrations (c : wrapper_class)
    (id : nat) (handler : callable) (owner : nat) (target : option nat)
    (self : wrapper) (w : world) :
  new_wrapper c id handler owner target = Ret self →
  match handler, target with
  | Method _ (Some _), _ | Func _, Some _ =>
      ∃ w', listener_deleted self w = (Ret tt, deleted self, w') ∧
            w_owner self = Is owner
  | _, _ =>
      ∃ e, listener_deleted self w = (Raise e, self, w) ∧
           exc_cls e = AttributeError
  end ∧
  match handler with
  | Method f s =>
      new_wrapper c id (Method f s) owner None = Ret self
  | Func _ => True
  end.
Proof.
  intros Hnew.
  destruct (new_wrapper_fields c id handler owner target self Hnew)
    as (_ & _ & Hf).
  assert (Hweak : w_owner self = Is owner →
            ∃ w', listener_deleted self w = (Ret tt, deleted self, w') ∧
                  w_owner self = Is owner).
  { intros Ho.
    destruct (remove_first (w_id self) (owners w !!! owner)) as [xs|] eqn:E.
    - eexists. split; [|exact Ho].
      unfold listener_deleted, try_except_ValueError, list_remove.
      rewrite Ho. mstep. rewrite E. reflexivity.
    - exists w. split; [|exact Ho].
      apply (listener_deleted_absent self owner w Ho).
      apply remove_first_None. exact E. }
  assert (Hnone : w_owner self = Unset →
            ∃ e, listener_deleted self w = (Raise e, self, w) ∧
                 exc_cls e = AttributeError).
  { intros Ho. unfold listener_deleted, try_except_ValueError.
    rewrite Ho. eexists. split; reflexivity. }
  split.
  - destruct handler as [f|f [recv|]].
    + destruct Hf as (_ & _ & Hf). destruct target; destruct Hf; auto.
    + destruct Hf as (_ & _ & Ho & _). destruct target; auto.
    + destruct Hf as (_ & _ & _ & Ho). destruct target; auto.
  - destruct handler as [f|f s]; [exact I|].
    rewrite <- Hnew. unfold new_wrapper, init. destruct s; reflexivity.
Qed.

End RegistrationLifecycle.

(** X9.  [dispose()] and the cleanup may come in either order, as the
    comment in [listener_deleted] asks: on a wrapper with an owner,
    [listener_deleted] after [dispose()] returns without raising and leaves
    the wrapper and the owning list exactly as [listener_deleted] alone does,
    and [dispose()] after [listener_deleted] changes nothing any more. *)
Theorem dispose_and_cleanup_commute (self : wrapper) (l : nat) (w : world) :
  w_owner self = Is l →
  (∃ w', listener_deleted self w = (Ret tt, deleted self, w') ∧
         listener_deleted (dispose self) w = (Ret tt, deleted self, w')) ∧
  dispose (deleted self) = deleted self.
Proof.
  intros Ho. split; [|reflexivity].
  destruct (remove_first (w_id self) (owners w !!! l)) as [xs|] eqn:E.
  - exists (set_owners (<[l := xs]> (owners w)) w).
    unfold listener_deleted, try_except_ValueError, list_remove.
    change (w_owner (dispose self)) with (w_owner self).
    change (w_id (dispose self)) with (w_id self).
    rewrite Ho. mstep. rewrite E. split; reflexivity.
  - exists w.
    unfold listener_deleted, try_except_ValueError, list_remove.
    change (w_owner (dispose self)) with (w_owner self).
    change (w_id (dispose self)) with (w_id self).
    rewrite Ho. mstep. rewrite E. split; reflexivity.
Qed.

(** X16.  The record a new thread starts from is read when the thread first
    uses its stack, from the list the main thread keeps pushing onto: before
    a push of the main thread a new thread would start from the record then
    on top, after the push it starts from the pushed record, although the
    designation was made earlier. *)
Theorem new_thread_starts_from_main_top (m t : Z) (a : push_args)
    (hm : list NotificationExceptionHandlerState) (w : world) :
  main_thread w = Some m →
  stack_of m w = Some hm →
  (1 ≤ length hm)%nat →
  top_locked hm = false →
  t ≠ m →
  stack_of t w = None →
  ∃ prev w1,
    push_with m a w = (Ret prev, w1) ∧
    fst (_get_handlers t w) = Ret [prev] ∧
    fst (_get_handlers t w1)
      = Ret [pushed_record (pa_handler a) (pa_reraise a) (pa_locked a)] ∧
    stack_of m (snd (_get_handlers t w1))
      = Some (hm ++ [pushed_record (pa_handler a) (pa_reraise a)
                       (pa_locked a)]).
Proof.
  unfold stack_of. intros Hmain Hm Hlen Hun Hne Ht.
  destruct (push_existing_succeeds m w hm (pa_handler a) (pa_reraise a)
              (pa_main a) (pa_locked a) Hm Hlen Hun) as (prev & Hprev & Hpush).
  exists prev. eexists. split; [exact Hpush|].
  set (rec := pushed_record (pa_handler a) (pa_reraise a) (pa_locked a)).
  set (w1 := after_push m (hm ++ [rec]) (pa_main a) w).
  destruct (after_push_frame m (hm ++ [rec]) (pa_main a) w)
    as (Hfr & Hfm & _). fold w1 in Hfr, Hfm.
  assert (Hm1 : thread_local w1 !! m = Some (hm ++ [rec]))
    by apply stack_after_push.
  assert (Ht1 : thread_local w1 !! t = None)
    by (rewrite (Hfr t Hne); exact Ht).
  assert (Hmain1 : main_thread w1 = Some m)
    by (rewrite Hfm; destruct (pa_main a); [reflexivity | exact Hmain]).
  split; [|split].
  - unfold _get_handlers. mstep. rewrite Ht, Hmain, Hm. simpl.
    rewrite (getitem_neg_last _ _ _ Hprev). reflexivity.
  - unfold _get_handlers. mstep. rewrite Ht1, Hmain1, Hm1. simpl.
    rewrite (getitem_neg_last (hm ++ [rec]) rec _ (last_snoc _ _)).
    reflexivity.
  - unfold _get_handlers. mstep. rewrite Ht1, Hmain1, Hm1. simpl.
    rewrite (getitem_neg_last (hm ++ [rec]) rec _ (last_snoc _ _)).
    simpl. rewrite lookup_insert_ne by congruence. exact Hm1.
Qed.

(** * The further statements at concrete inputs *)

Lemma listener_gets_declared_arity_witness :
  new_wrapper TraitChangeNotifyWrapper 3 (Func f1) 0 None
    = Ret function_wrapper ∧
  ∃ args rest,
    trace (snd (call quiet_handlers failing quiet_ui 1 function_wrapper
                  ev_change initial_world))
      = trace initial_world ++ Called (Stored (Func f1)) args :: rest ∧
    Z.of_nat (length args) = 1.
Proof.
  split; [reflexivity|].
  destruct (listener_gets_declared_arity quiet_handlers failing quiet_ui 1
              TraitChangeNotifyWrapper 3 (Func f1) 0 None function_wrapper
              ev_change initial_world) as (H & _);
    [left; reflexivity | reflexivity | discriminate | discriminate
    | discriminate |].
  exact H.
Defined.

Lemma equals_finds_the_registered_handler_witness :
  new_wrapper TraitChangeNotifyWrapper 3 (Method m2 (Some 9%nat)) 0 None
    = Ret method_wrapper ∧
  9%nat ∈ live world_owned ∧
  equals method_wrapper (ObjCallable (Method m2 (Some 9%nat))) world_owned
    = (Ret true, world_owned) ∧
  ∃ e, equals (dispose method_wrapper) (ObjCallable (Method m2 (Some 9%nat)))
         world_owned = (Raise e, world_owned) ∧
       exc_cls e = TypeError.
Proof.
  assert (Hl : 9%nat ∈ live world_owned) by (vm_compute; reflexivity).
  split; [reflexivity|]. split; [exact Hl|].
  destruct (equals_finds_the_registered_handler TraitChangeNotifyWrapper 3
              (Method m2 (Some 9%nat)) 0 None method_wrapper world_owned
              eq_refl) as (H1 & _ & _ & H4).
  - intros f recv [= <- <-]. exact Hl.
  - split; [exact H1|]. apply (H4 m2 9%nat). reflexivity.
Defined.

Lemma dispose_and_cleanup_commute_witness :
  w_owner method_wrapper = Is 0%nat ∧
  ∃ w',
    listener_deleted method_wrapper world_owned
      = (Ret tt, deleted method_wrapper, w') ∧
    listener_deleted (dispose method_wrapper) world_owned
      = (Ret tt, deleted method_wrapper, w').
Proof.
  split; [reflexivity|].
  destruct (dispose_and_cleanup_commute method_wrapper 0 world_owned eq_refl)
    as (H & _).
  exact H.
Defined.

Lemma method_without_arguments_cannot_be_notified_witness :
  co_argcount m0 = 0%nat ∧
  ∃ self,
    new_wrapper TraitChangeNotifyWrapper 3 (Method m0 (Some 9%nat)) 0 None
      = Ret self ∧
    ∃ e, call quiet_handlers quiet quiet_ui 1 self ev_first world_owned
           = (Raise e, world_owned) ∧
         exc_cls e = AttributeError.
Proof.
  split; [reflexivity|].
  destruct (method_without_arguments_cannot_be_notified quiet_handlers quiet
              quiet_ui 1 TraitChangeNotifyWrapper 3 m0 9 0 None eq_refl)
    as (self & Hnew & _ & Hcall).
  exists self. split; [exact Hnew|]. apply (Hcall ev_first world_owned).
Defined.

Lemma listener_deleted_spares_the_others_witness :
  w_owner method_wrapper = Is 0%nat ∧
  (owners (snd (listener_deleted method_wrapper world_owned)) !!! 1%nat
     : list nat) = owners world_owned !!! 1%nat ∧
  3%nat ∉ (owners (snd (listener_deleted method_wrapper world_owned))
             !!! 0%nat : list nat).
Proof.
  split; [reflexivity|].
  pose proof (listener_deleted_spares_the_others method_wrapper 0 world_owned
                eq_refl) as H.
  cbv zeta in H. destruct H as (_ & _ & _ & Hnd & Hother).
  split.
  - apply (Hother 1%nat). discriminate.
  - apply Hnd. vm_compute. repeat constructor. apply not_elem_of_nil.
Defined.

Lemma cleanup_is_set_up_for_weak_registrations_witness :
  new_wrapper TraitChangeNotifyWrapper 3 (Method m2 None) 0 (Some 9%nat)
    = Ret unbound_wrapper ∧
  (∃ e, listener_deleted unbound_wrapper world_owned
          = (Raise e, unbound_wrapper, world_owned) ∧
        exc_cls e = AttributeError) ∧
  new_wrapper TraitChangeNotifyWrapper 3 (Method m2 None) 0 None
    = Ret unbound_wrapper.
Proof.
  split; [reflexivity|].
  exact (cleanup_is_set_up_for_weak_registrations TraitChangeNotifyWrapper 3
           (Method m2 None) 0 (Some 9%nat) unbound_wrapper world_owned
           eq_refl).
Defined.

Lemma new_thread_wrapper_returns_at_once_witness :
  new_wrapper NewTraitChangeNotifyWrapper 3 (Func f1) 0 None
    = Ret thread_wrapper ∧
  call quiet_handlers failing quiet_ui 1 thread_wrapper ev_change
    initial_world
    = (Ret tt,
       add_effect (ThreadStarted (Stored (Func f1)) [PyInt 5]) initial_world).
Proof.
  split; [reflexivity|].
  apply (new_thread_wrapper_returns_at_once quiet_handlers failing quiet_ui 1
           3 (Func f1) 0 None thread_wrapper ev_change initial_world);
    [discriminate | reflexivity | discriminate].
Defined.

Lemma fast_ui_wrapper_off_the_ui_thread_witness :
  new_wrapper FastUITraitChangeNotifyWrapper 3 (Func f1) 0 None
    = Ret ui_wrapper ∧
  1 ≠ ui_thread world_ui ∧
  call quiet_handlers failing quiet_ui 1 ui_wrapper ev_change world_ui
    = (Ret tt, add_effect (UiQueued (Stored (Func f1)) [PyInt 5]) world_ui) ∧
  ∃ hx, at_most_one_handling ev_change hx ∧
        trace (snd (call quiet_handlers failing quiet_ui 1 ui_wrapper
                      ev_change initial_world))
          = trace initial_world ++ hx.
Proof.
  split; [reflexivity|]. split; [discriminate|].
  pose proof (fast_ui_wrapper_off_the_ui_thread quiet_handlers failing
                quiet_ui 1 3 (Func f1) 0 None ui_wrapper ev_change world_ui)
    as H1.
  pose proof (fast_ui_wrapper_off_the_ui_thread quiet_handlers failing
                quiet_ui 1 3 (Func f1) 0 None ui_wrapper ev_change
                initial_world) as H2.
  cbv zeta in H1, H2.
  destruct H1 as (Hq & _);
    [discriminate | reflexivity | discriminate | discriminate |].
  destruct H2 as (_ & Hn);
    [discriminate | reflexivity | discriminate | discriminate |].
  split.
  - apply (Hq 0%nat); reflexivity.
  - destruct (Hn eq_refl) as (e & hx & _ & Hhx & Ht & _).
    exists hx. split; [exact Hhx | exact Ht].
Defined.

Lemma set_ui_handler_claims_the_thread_witness :
  new_wrapper FastUITraitChangeNotifyWrapper 3 (Func f1) 0 None
    = Ret ui_wrapper ∧
  new_wrapper TraitChangeNotifyWrapper 3 (Func f1) 0 None
    = Ret function_wrapper ∧
  (exec! set_ui_handler 1 None in
   call quiet_handlers quiet quiet_ui 1 ui_wrapper ev_change) initial_world
    = (exec! set_ui_handler 1 None in
       call quiet_handlers quiet quiet_ui 1 function_wrapper ev_change)
        initial_world.
Proof.
  split; [reflexivity|]. split; [reflexivity|].
  destruct (set_ui_handler_claims_the_thread quiet_handlers quiet quiet_ui 1
              None 3 (Func f1) 0 None ui_wrapper function_wrapper ev_change
              initial_world) as (_ & _ & H);
    [discriminate | reflexivity | reflexivity |].
  exact H.
Defined.

Lemma new_thread_starts_from_main_top_witness :
  main_thread world_main = Some 1 ∧
  stack_of 1 world_main = Some [default_state] ∧
  stack_of 2 world_main = None ∧
  ∃ prev w1,
    push_with 1 (PushArgs None true false false) world_main = (Ret prev, w1) ∧
    fst (_get_handlers 2 world_main) = Ret [prev] ∧
    fst (_get_handlers 2 w1) = Ret [reraising].
Proof.
  split; [reflexivity|]. split; [reflexivity|]. split; [reflexivity|].
  destruct (new_thread_starts_from_main_top 1 2
              (PushArgs None true false false) [default_state] world_main)
    as (prev & w1 & Hpush & H0 & H1 & _);
    [reflexivity | reflexivity | repeat constructor | reflexivity
    | discriminate | reflexivity |].
  exists prev, w1. split; [exact Hpush|]. split; [exact H0 | exact H1].
Defined.
